(** * Layer pipelines built by rllib/core/models/tf/primitives.py

    A shallow embedding of the three Keras model builders [TfMLP], [TfCNN]
    and [TfCNNTranspose].  A constructor's result is the list of layer
    descriptors it hands to [tf.keras.Sequential]; each descriptor records
    the keyword arguments the source passes to the Keras layer class.  What
    Keras computes with them (shape inference, the numerics) is outside the
    file; the checks of its constructors are a parameter of the builders of
    the second part.  Python exceptions are results of an error monad. *)

From stdpp Require Import base numbers list strings.

Local Open Scope Z_scope.

(** ** Python values *)

(** An opaque Python callable, identified by its qualified name. *)
Inductive Callable := PyCallable (qualname : string).

(** [Union[str, Callable]]: how an activation is named in a configuration. *)
Inductive ActivationArg :=
| ByName (name : string)
| ByCallable (fn : Callable).

(** What the resolver hands back. *)
Inductive ActivationFn :=
| NamedActivation (name : string)
| CustomActivation (fn : Callable).

(** A float literal as it is written in the source: [1e-5] is
    [{| significand := 1; exponent10 := -5 |}]. *)
Record FloatLiteral := { significand : Z; exponent10 : Z }.

(** [Union[int, List]]: a filter count, or a kernel or stride given as one
    int or as a list of ints. *)
Inductive SpecItem :=
| ItemInt (n : Z)
| ItemList (ns : list Z).

Inductive DType := float16 | float32 | float64 | int32 | int64 | uint8.

(** ** Exceptions and the error monad *)

Inductive Exception :=
| AssertionError
| ValueError
| IndexError
| InvalidConfiguration (name : string).

Inductive Result (A : Type) :=
| Ok (a : A)
| Raise (e : Exception).
Arguments Ok {A} a.
Arguments Raise {A} e.

#[global] Instance Result_ret : MRet Result := @Ok.
#[global] Instance Result_bind : MBind Result :=
  fun A B f r => match r with Ok a => f a | Raise e => Raise e end.

(** [assert cond] *)
Definition assert (cond : bool) : Result unit :=
  if cond then Ok tt else Raise AssertionError.

(** [l[i]] for a non-negative index. *)
Definition getitem {A} (l : list A) (i : nat) : Result A :=
  match l !! i with
  | Some x => Ok x
  | None => Raise IndexError
  end.

(** [a, b, c = spec]: unpacking into exactly three targets. *)
Definition unpack3 {A} (spec : list A) : Result (A * A * A) :=
  match spec with
  | [a; b; c] => Ok (a, b, c)
  | _ => Raise ValueError
  end.

(** [range(n)] and [enumerate(l)]. *)
Definition range (n : nat) : list nat := seq 0 n.

Definition enumerate {A} (l : list A) : list (Z * A) :=
  imap (fun i x => (Z.of_nat i, x)) l.

(** [for x in xs: body], the loop state threaded through the iterations;
    an exception in an iteration ends the loop. *)
Fixpoint for_in {A S} (xs : list A) (body : A -> S -> Result S) (s : S)
  : Result S :=
  match xs with
  | [] => Ok s
  | x :: rest => s' ← body x s; for_in rest body s'
  end.

(** ** Keras layers *)

(** The layer classes of [tf.keras] the builders instantiate, each with
    the arguments the source passes.  [LayerNormalization]'s [axis] is
    [None] where the source leaves it to Keras' default (the last,
    feature axis).  An [activation] of [None] is Python's [None]: the layer
    applies no activation of its own. *)
Inductive Layer :=
| Input (shape : list Z)
| Dense (units : Z) (activation : option ActivationFn) (use_bias : bool)
| LayerNormalization (axis : option (list Z)) (epsilon : FloatLiteral)
| Activation (activation : ActivationFn)
| Conv2D (filters kernel_size strides : SpecItem) (padding : string)
         (use_bias : bool) (activation : option ActivationFn)
| Conv2DTranspose (filters kernel_size strides : SpecItem) (padding : string)
                  (activation : option ActivationFn) (use_bias : bool).

(** [tf.keras.Sequential(layers)] *)
Definition Sequential := list Layer.

(** [layers.append(x)] *)
Definition append (layers : list Layer) (x : Layer) : list Layer :=
  layers ++ [x].

Definition eps_1e_5 : FloatLiteral := {| significand := 1; exponent10 := -5 |}.

(** ** The activation resolver *)

(** [ray.rllib.models.utils.get_activation_fn(name, framework)]: the
    builders only call it, so they are parametric in it. *)
Class ActivationResolver :=
  get_activation_fn : ActivationArg -> string -> Result ActivationFn.

(** Modelled from the spec: the resolver [get_activation_fn] lives in
    ray/rllib/models/utils.py, which is not among the sources.  The spec
    describes it as mapping a name or a callable to an activation, resolved
    to one of NamedActivation(name) or CustomActivation(fn), and as failing
    with InvalidConfiguration on an unrecognized activation name.  Which
    names the numerical backend recognizes is the argument [recognized]. *)
Definition spec_resolver (recognized : string -> bool) : ActivationResolver :=
  fun name framework =>
    match name with
    | ByCallable fn => Ok (CustomActivation fn)
    | ByName s =>
        if recognized s then Ok (NamedActivation s)
        else Raise (InvalidConfiguration s)
    end.

(** ** Forward evaluation *)

(** What a [call] asks of the framework, on a caller-supplied tensor. *)
Inductive Graph (Tensor : Type) :=
| Given (inputs : Tensor)
| Cast (x : Graph Tensor) (dtype : DType)
| Apply (net : Sequential) (x : Graph Tensor).
Arguments Given {Tensor} inputs.
Arguments Cast {Tensor} x dtype.
Arguments Apply {Tensor} net x.

(** The dtypes a computation casts to, innermost first. *)
Fixpoint casts {Tensor} (g : Graph Tensor) : list DType :=
  match g with
  | Given _ => []
  | Cast x d => casts x ++ [d]
  | Apply _ x => casts x
  end.

(** Running a computation on a framework that provides [tf.cast] and the
    evaluation of a [Sequential]. *)
Fixpoint run {Tensor} (tf_cast : Tensor -> DType -> Tensor)
    (sequential_call : Sequential -> Tensor -> Tensor) (g : Graph Tensor)
  : Tensor :=
  match g with
  | Given x => x
  | Cast x d => tf_cast (run tf_cast sequential_call x) d
  | Apply net x => sequential_call net (run tf_cast sequential_call x)
  end.

(** ** TfMLP *)

Module TfMLP.

Record t := { network : Sequential }.

(** The body of [for i in range(len(hidden_layer_dims))]. *)
Definition hidden_body (hidden_layer_dims : list Z)
    (hidden_layer_use_layernorm : bool) (hidden_activation : ActivationFn)
    (use_bias : bool) (i : nat) (layers : list Layer)
  : Result (list Layer) :=
  units ← getitem hidden_layer_dims i;
  let layers :=
    append layers
      (Dense units
         (if negb hidden_layer_use_layernorm then Some hidden_activation
          else None)
         use_bias) in
  if hidden_layer_use_layernorm then
    let layers := append layers (LayerNormalization None eps_1e_5) in
    let layers := append layers (Activation hidden_activation) in
    Ok layers
  else Ok layers.

Definition __init__ {resolver : ActivationResolver}
    (input_dim : Z) (hidden_layer_dims : list Z)
    (hidden_layer_use_layernorm : bool)
    (hidden_layer_activation : ActivationArg)
    (output_dim : option Z) (output_activation : ActivationArg)
    (use_bias : bool) : Result t :=
  _ ← assert (bool_decide (input_dim > 0));
  let layers := [] in
  let layers := append layers (Input [input_dim]) in
  hidden_activation ← get_activation_fn hidden_layer_activation "tf2";
  layers ← for_in (range (length hidden_layer_dims))
             (hidden_body hidden_layer_dims hidden_layer_use_layernorm
                hidden_activation use_bias)
             layers;
  layers ←
    match output_dim with
    | Some output_dim =>
        output_activation ← get_activation_fn output_activation "tf2";
        Ok (append layers
              (Dense output_dim (Some output_activation) use_bias))
    | None => Ok layers
    end;
  Ok {| network := layers |}.

Definition call {Tensor} (self : t) (inputs : Tensor) : Graph Tensor :=
  Apply (network self) (Given inputs).

End TfMLP.

(** ** TfCNN *)

Module TfCNN.

Record t := { cnn : Sequential; expected_input_dtype : DType }.

(** The body of
    [for num_filters, kernel_size, strides in cnn_filter_specifiers]. *)
Definition conv_body (cnn_use_layernorm : bool)
    (cnn_activation : ActivationFn) (use_bias : bool)
    (spec : list SpecItem) (layers : list Layer) : Result (list Layer) :=
  '(num_filters, kernel_size, strides) ← unpack3 spec;
  let layers :=
    append layers
      (Conv2D num_filters kernel_size strides "same" use_bias
         (if cnn_use_layernorm then None else Some cnn_activation)) in
  if cnn_use_layernorm then
    let layers :=
      append layers (LayerNormalization (Some [-3; -2; -1]) eps_1e_5) in
    let layers := append layers (Activation cnn_activation) in
    Ok layers
  else Ok layers.

Definition __init__ {resolver : ActivationResolver}
    (input_dims : list Z) (cnn_filter_specifiers : list (list SpecItem))
    (cnn_use_layernorm : bool) (cnn_activation : ActivationArg)
    (use_bias : bool) : Result t :=
  _ ← assert (bool_decide (Z.of_nat (length input_dims) = 3));
  cnn_activation ← get_activation_fn cnn_activation "tf2";
  let layers := [] in
  let layers := append layers (Input input_dims) in
  layers ← for_in cnn_filter_specifiers
             (conv_body cnn_use_layernorm cnn_activation use_bias)
             layers;
  Ok {| cnn := layers; expected_input_dtype := float32 |}.

Definition call {Tensor} (self : t) (inputs : Tensor) : Graph Tensor :=
  Apply (cnn self) (Cast (Given inputs) (expected_input_dtype self)).

End TfCNN.

(** ** TfCNNTranspose *)

Module TfCNNTranspose.

Record t := { cnn_transpose : Sequential; expected_input_dtype : DType }.

(** The body of [for i, (num_filters, kernel_size, strides) in
    enumerate(cnn_transpose_filter_specifiers)]. *)
Definition conv_transpose_body
    (cnn_transpose_filter_specifiers : list (list SpecItem))
    (cnn_transpose_activation : ActivationFn)
    (cnn_transpose_use_layernorm : bool) (use_bias : bool)
    (item : Z * list SpecItem) (layers : list Layer)
  : Result (list Layer) :=
  let '(i, spec) := item in
  '(num_filters, kernel_size, strides) ← unpack3 spec;
  let is_final_layer :=
    bool_decide
      (i = Z.of_nat (length cnn_transpose_filter_specifiers) - 1) in
  let layers :=
    append layers
      (Conv2DTranspose num_filters kernel_size strides "same"
         (if cnn_transpose_use_layernorm || is_final_layer then None
          else Some cnn_transpose_activation)
         (use_bias || is_final_layer)) in
  if cnn_transpose_use_layernorm && negb is_final_layer then
    let layers :=
      append layers (LayerNormalization (Some [-3; -2; -1]) eps_1e_5) in
    let layers := append layers (Activation cnn_transpose_activation) in
    Ok layers
  else Ok layers.

Definition __init__ {resolver : ActivationResolver}
    (input_dims : list Z)
    (cnn_transpose_filter_specifiers : list (list SpecItem))
    (cnn_transpose_activation : ActivationArg)
    (cnn_transpose_use_layernorm : bool) (use_bias : bool) : Result t :=
  _ ← assert (bool_decide (Z.of_nat (length input_dims) = 3));
  cnn_transpose_activation ←
    get_activation_fn cnn_transpose_activation "tf2";
  let layers := [] in
  let layers := append layers (Input input_dims) in
  layers ← for_in (enumerate cnn_transpose_filter_specifiers)
             (conv_transpose_body cnn_transpose_filter_specifiers
                cnn_transpose_activation cnn_transpose_use_layernorm
                use_bias)
             layers;
  Ok {| cnn_transpose := layers; expected_input_dtype := float32 |}.

Definition call {Tensor} (self : t) (inputs : Tensor) : Graph Tensor :=
  Apply (cnn_transpose self) (Cast (Given inputs) (expected_input_dtype self)).

End TfCNNTranspose.

(** ** The builders with the checks of Keras

    The builders above run on a Keras that accepts every layer: their
    result is the pipeline the source asks for.  The layer classes and
    [Sequential] have checks of their own, and raise on arguments they do
    not accept (a negative [units], a filter count of zero, a shape Keras
    cannot build).  The checks are Keras' and not the repository's, so the
    builders below take them as they come and run them at the calls where
    the source makes them. *)

Class KerasChecks := {
  layer_check : Layer -> Result unit;
  sequential_check : list Layer -> Result unit
}.

(** Calling one of the layer classes: Keras' check, then the layer. *)
Definition new_layer {keras : KerasChecks} (l : Layer) : Result Layer :=
  _ ← layer_check l; Ok l.

(** Calling [tf.keras.Sequential]. *)
Definition new_Sequential {keras : KerasChecks} (layers : list Layer)
  : Result Sequential :=
  _ ← sequential_check layers; Ok layers.

Module CheckedTfMLP.

Definition hidden_body {keras : KerasChecks} (hidden_layer_dims : list Z)
    (hidden_layer_use_layernorm : bool) (hidden_activation : ActivationFn)
    (use_bias : bool) (i : nat) (layers : list Layer)
  : Result (list Layer) :=
  units ← getitem hidden_layer_dims i;
  dense ←
    new_layer
      (Dense units
         (if negb hidden_layer_use_layernorm then Some hidden_activation
          else None)
         use_bias);
  let layers := append layers dense in
  if hidden_layer_use_layernorm then
    norm ← new_layer (LayerNormalization None eps_1e_5);
    let layers := append layers norm in
    activation ← new_layer (Activation hidden_activation);
    let layers := append layers activation in
    Ok layers
  else Ok layers.

Definition __init__ {resolver : ActivationResolver} {keras : KerasChecks}
    (input_dim : Z) (hidden_layer_dims : list Z)
    (hidden_layer_use_layernorm : bool)
    (hidden_layer_activation : ActivationArg)
    (output_dim : option Z) (output_activation : ActivationArg)
    (use_bias : bool) : Result TfMLP.t :=
  _ ← assert (bool_decide (input_dim > 0));
  let layers := [] in
  input ← new_layer (Input [input_dim]);
  let layers := append layers input in
  hidden_activation ← get_activation_fn hidden_layer_activation "tf2";
  layers ← for_in (range (length hidden_layer_dims))
             (hidden_body hidden_layer_dims hidden_layer_use_layernorm
                hidden_activation use_bias)
             layers;
  layers ←
    match output_dim with
    | Some output_dim =>
        output_activation ← get_activation_fn output_activation "tf2";
        dense ←
          new_layer (Dense output_dim (Some output_activation) use_bias);
        Ok (append layers dense)
    | None => Ok layers
    end;
  network ← new_Sequential layers;
  Ok {| TfMLP.network := network |}.

End CheckedTfMLP.

Module CheckedTfCNN.

Definition conv_body {keras : KerasChecks} (cnn_use_layernorm : bool)
    (cnn_activation : ActivationFn) (use_bias : bool)
    (spec : list SpecItem) (layers : list Layer) : Result (list Layer) :=
  '(num_filters, kernel_size, strides) ← unpack3 spec;
  conv ←
    new_layer
      (Conv2D num_filters kernel_size strides "same" use_bias
         (if cnn_use_layernorm then None else Some cnn_activation));
  let layers := append layers conv in
  if cnn_use_layernorm then
    norm ← new_layer (LayerNormalization (Some [-3; -2; -1]) eps_1e_5);
    let layers := append layers norm in
    activation ← new_layer (Activation cnn_activation);
    let layers := append layers activation in
    Ok layers
  else Ok layers.

Definition __init__ {resolver : ActivationResolver} {keras : KerasChecks}
    (input_dims : list Z) (cnn_filter_specifiers : list (list SpecItem))
    (cnn_use_layernorm : bool) (cnn_activation : ActivationArg)
    (use_bias : bool) : Result TfCNN.t :=
  _ ← assert (bool_decide (Z.of_nat (length input_dims) = 3));
  cnn_activation ← get_activation_fn cnn_activation "tf2";
  let layers := [] in
  input ← new_layer (Input input_dims);
  let layers := append layers input in
  layers ← for_in cnn_filter_specifiers
             (conv_body cnn_use_layernorm cnn_activation use_bias)
             layers;
  cnn ← new_Sequential layers;
  Ok {| TfCNN.cnn := cnn; TfCNN.expected_input_dtype := float32 |}.

End CheckedTfCNN.

Module CheckedTfCNNTranspose.

Definition conv_transpose_body {keras : KerasChecks}
    (cnn_transpose_filter_specifiers : list (list SpecItem))
    (cnn_transpose_activation : ActivationFn)
    (cnn_transpose_use_layernorm : bool) (use_bias : bool)
    (item : Z * list SpecItem) (layers : list Layer)
  : Result (list Layer) :=
  let '(i, spec) := item in
  '(num_filters, kernel_size, strides) ← unpack3 spec;
  let is_final_layer :=
    bool_decide
      (i = Z.of_nat (length cnn_transpose_filter_specifiers) - 1) in
  conv ←
    new_layer
      (Conv2DTranspose num_filters kernel_size strides "same"
         (if cnn_transpose_use_layernorm || is_final_layer then None
          else Some cnn_transpose_activation)
         (use_bias || is_final_layer));
  let layers := append layers conv in
  if cnn_transpose_use_layernorm && negb is_final_layer then
    norm ← new_layer (LayerNormalization (Some [-3; -2; -1]) eps_1e_5);
    let layers := append layers norm in
    activation ← new_layer (Activation cnn_transpose_activation);
    let layers := append layers activation in
    Ok layers
  else Ok layers.

Definition __init__ {resolver : ActivationResolver} {keras : KerasChecks}
    (input_dims : list Z)
    (cnn_transpose_filter_specifiers : list (list SpecItem))
    (cnn_transpose_activation : ActivationArg)
    (cnn_transpose_use_layernorm : bool) (use_bias : bool)
  : Result TfCNNTranspose.t :=
  _ ← assert (bool_decide (Z.of_nat (length input_dims) = 3));
  cnn_transpose_activation ←
    get_activation_fn cnn_transpose_activation "tf2";
  let layers := [] in
  input ← new_layer (Input input_dims);
  let layers := append layers input in
  layers ← for_in (enumerate cnn_transpose_filter_specifiers)
             (conv_transpose_body cnn_transpose_filter_specifiers
                cnn_transpose_activation cnn_transpose_use_layernorm
                use_bias)
             layers;
  cnn_transpose ← new_Sequential layers;
  Ok {| TfCNNTranspose.cnn_transpose := cnn_transpose;
        TfCNNTranspose.expected_input_dtype := float32 |}.

End CheckedTfCNNTranspose.

(** ** A sample backend, for running the builders *)

Definition sample_names : list string :=
  ["linear"; "relu"; "silu"; "tanh"]%string.

Definition sample_recognized (s : string) : bool :=
  bool_decide (s ∈ sample_names).

Definition sample_resolver : ActivationResolver :=
  spec_resolver sample_recognized.

Definition relu : ActivationFn := NamedActivation "relu".

(** Sample checks: a dense layer needs a positive number of units, an input
    no negative shape entry, and a model at least its input. *)
Definition sample_keras : KerasChecks :=
  {| layer_check l :=
       match l with
       | Dense units _ _ =>
           if bool_decide (0 < units) then Ok tt else Raise ValueError
       | Input shape =>
           if bool_decide (Forall (fun n => 0 <= n) shape) then Ok tt
           else Raise ValueError
       | _ => Ok tt
       end;
     sequential_check layers :=
       match layers with
       | Input _ :: _ => Ok tt
       | _ => Raise ValueError
       end |}.

(** The pipelines of the spec's scenarios. *)
Definition sample_mlp : TfMLP.t :=
  {| TfMLP.network :=
       [Input [4];
        Dense 8 None true; LayerNormalization None eps_1e_5; Activation relu;
        Dense 8 None true; LayerNormalization None eps_1e_5; Activation relu;
        Dense 2 (Some (NamedActivation "linear")) true] |}.

Definition sample_cnn_specs : list (list SpecItem) :=
  [[ItemInt 32; ItemInt 3; ItemInt 1]; [ItemInt 64; ItemInt 3; ItemInt 2]].

Definition sample_cnn : TfCNN.t :=
  {| TfCNN.cnn :=
       [Input [16; 16; 3];
        Conv2D (ItemInt 32) (ItemInt 3) (ItemInt 1) "same" true (Some relu);
        Conv2D (ItemInt 64) (ItemInt 3) (ItemInt 2) "same" true (Some relu)];
     TfCNN.expected_input_dtype := float32 |}.

Definition sample_transpose_specs : list (list SpecItem) :=
  [[ItemInt 16; ItemInt 3; ItemInt 2];
   [ItemInt 3; ItemList [3; 3]; ItemInt 2]].

Definition sample_cnn_transpose : TfCNNTranspose.t :=
  {| TfCNNTranspose.cnn_transpose :=
       [Input [4; 4; 8];
        Conv2DTranspose (ItemInt 16) (ItemInt 3) (ItemInt 2) "same" None false;
        LayerNormalization (Some [-3; -2; -1]) eps_1e_5; Activation relu;
        Conv2DTranspose (ItemInt 3) (ItemList [3; 3]) (ItemInt 2) "same"
          None true];
     TfCNNTranspose.expected_input_dtype := float32 |}.

(** ** Closed forms used in the statements *)

(** The three elements of a spec, as the list the configuration holds. *)
Definition spec_of (t : SpecItem * SpecItem * SpecItem) : list SpecItem :=
  let '(f, k, s) := t in [f; k; s].

Definition is_normalization (l : Layer) : bool :=
  match l with LayerNormalization _ _ => true | _ => false end.

Definition is_dense (l : Layer) : bool :=
  match l with Dense _ _ _ => true | _ => false end.

Definition is_activation (l : Layer) : bool :=
  match l with Activation _ => true | _ => false end.

Definition is_conv_transpose (l : Layer) : bool :=
  match l with Conv2DTranspose _ _ _ _ _ _ => true | _ => false end.

(** How often a kind of layer occurs in a pipeline. *)
Definition count (p : Layer -> bool) (layers : list Layer) : nat :=
  length (List.filter p layers).

(** The [use_bias] of the transposed convolutions of a pipeline, in order. *)
Definition conv_transpose_biases (layers : list Layer) : list bool :=
  omap (fun l => match l with
                 | Conv2DTranspose _ _ _ _ _ b => Some b
                 | _ => None
                 end) layers.

(** The [use_bias] of the dense layers of a pipeline, in order. *)
Definition dense_biases (layers : list Layer) : list bool :=
  omap (fun l => match l with Dense _ _ b => Some b | _ => None end) layers.

(** What one hidden width adds to a [TfMLP] pipeline. *)
Definition hidden_block (use_layernorm : bool) (act : ActivationFn)
    (use_bias : bool) (w : Z) : list Layer :=
  if use_layernorm then
    [Dense w None use_bias; LayerNormalization None eps_1e_5; Activation act]
  else [Dense w (Some act) use_bias].

(** What one spec adds to a [TfCNN] pipeline. *)
Definition conv_block (use_layernorm : bool) (act : ActivationFn)
    (use_bias : bool) (t : SpecItem * SpecItem * SpecItem) : list Layer :=
  let '(f, k, s) := t in
  if use_layernorm then
    [Conv2D f k s "same" use_bias None;
     LayerNormalization (Some [-3; -2; -1]) eps_1e_5; Activation act]
  else [Conv2D f k s "same" use_bias (Some act)].

(** What a spec other than the last adds to a [TfCNNTranspose] pipeline. *)
Definition conv_transpose_block (use_layernorm : bool) (act : ActivationFn)
    (use_bias : bool) (t : SpecItem * SpecItem * SpecItem) : list Layer :=
  let '(f, k, s) := t in
  if use_layernorm then
    [Conv2DTranspose f k s "same" None use_bias;
     LayerNormalization (Some [-3; -2; -1]) eps_1e_5; Activation act]
  else [Conv2DTranspose f k s "same" (Some act) use_bias].

(** What the specs from some position to the end add to a [TfCNNTranspose]
    pipeline: the last one is treated apart. *)
Fixpoint conv_transpose_tail (use_layernorm : bool) (act : ActivationFn)
    (use_bias : bool) (ts : list (SpecItem * SpecItem * SpecItem))
  : list Layer :=
  match ts with
  | [] => []
  | (f, k, s) :: rest =>
      match rest with
      | [] => [Conv2DTranspose f k s "same" None true]
      | _ :: _ =>
          conv_transpose_block use_layernorm act use_bias (f, k, s)
          ++ conv_transpose_tail use_layernorm act use_bias rest
      end
  end.


(** ** Further observations of a pipeline *)

Definition is_input (l : Layer) : bool :=
  match l with Input _ => true | _ => false end.

(** The [units] of the dense layers of a pipeline, in order. *)
Definition dense_units (layers : list Layer) : list Z :=
  omap (fun l => match l with Dense u _ _ => Some u | _ => None end) layers.

(** The [filters] of the convolutions of a pipeline, in order. *)
Definition conv_filters (layers : list Layer) : list SpecItem :=
  omap (fun l => match l with
                 | Conv2D f _ _ _ _ _ => Some f
                 | _ => None
                 end) layers.

(** The [activation] arguments of the transposed convolutions of a
    pipeline, in order. *)
Definition conv_transpose_activations (layers : list Layer)
  : list (option ActivationFn) :=
  omap (fun l => match l with
                 | Conv2DTranspose _ _ _ _ a _ => Some a
                 | _ => None
                 end) layers.

(** How many layers one hidden width, or one spec that is not treated
    apart, adds. *)
Definition block_size (use_layernorm : bool) : nat :=
  if use_layernorm then 3%nat else 1%nat.

(** Further pipelines the properties are run on. *)
Definition sample_output_only_mlp : TfMLP.t :=
  {| TfMLP.network :=
       [Input [4]; Dense 2 (Some (NamedActivation "linear")) false] |}.

Definition sample_plain_mlp : TfMLP.t :=
  {| TfMLP.network :=
       [Input [4]; Dense 8 (Some relu) true; Dense 16 (Some relu) true;
        Dense 2 (Some (NamedActivation "linear")) true] |}.

Definition sample_plain_cnn_transpose : TfCNNTranspose.t :=
  {| TfCNNTranspose.cnn_transpose :=
       [Input [2; 2; 8];
        Conv2DTranspose (ItemInt 16) (ItemInt 3) (ItemInt 2) "same"
          (Some (NamedActivation "tanh")) true;
        Conv2DTranspose (ItemInt 3) (ItemList [3; 3]) (ItemInt 2) "same"
          None true];
     TfCNNTranspose.expected_input_dtype := float32 |}.

Definition sample_single_cnn_transpose : TfCNNTranspose.t :=
  {| TfCNNTranspose.cnn_transpose :=
       [Input [4; 4; 8];
        Conv2DTranspose (ItemInt 3) (ItemInt 4) (ItemInt 2) "same" None true];
     TfCNNTranspose.expected_input_dtype := float32 |}.

(** * Proofs *)

(** ** The scenarios of the specification, run *)

Example mlp_scenario :
  TfMLP.__init__ (resolver := sample_resolver) 4 [8; 8] true (ByName "relu")
    (Some 2) (ByName "linear") true
  = Ok sample_mlp.
Proof. reflexivity. Qed.

Example cnn_scenario :
  TfCNN.__init__ (resolver := sample_resolver) [16; 16; 3] sample_cnn_specs
    false (ByName "relu") true
  = Ok sample_cnn.
Proof. reflexivity. Qed.

Example cnn_transpose_scenario :
  TfCNNTranspose.__init__ (resolver := sample_resolver) [4; 4; 8]
    sample_transpose_specs (ByName "relu") true false
  = Ok sample_cnn_transpose.
Proof. reflexivity. Qed.

Example cnn_rejects_short_spec :
  TfCNN.__init__ (resolver := sample_resolver) [16; 16; 3]
    [[ItemInt 32; ItemInt 3]] false (ByName "relu") true
  = Raise ValueError.
Proof. reflexivity. Qed.

(** ** The error monad *)

Lemma bind_Ok {A B} (f : A -> Result B) (a : A) : (Ok a ≫= f) = f a.
Proof. reflexivity. Qed.

Lemma bind_Ok_inv {A B} (m : Result A) (f : A -> Result B) (b : B) :
  (m ≫= f) = Ok b -> exists a, m = Ok a /\ f a = Ok b.
Proof. destruct m as [a|e]; [eauto | discriminate]. Qed.

Lemma assert_Ok_inv (c : bool) (u : unit) : assert c = Ok u -> c = true.
Proof. destruct c; [reflexivity | discriminate]. Qed.

Lemma flat_map_cons {A B} (f : A -> list B) (x : A) (l : list A) :
  flat_map f (x :: l) = f x ++ flat_map f l.
Proof. reflexivity. Qed.

Lemma for_in_cons {A S} (x : A) (xs : list A) (body : A -> S -> Result S)
    (s : S) :
  for_in (x :: xs) body s = (body x s ≫= for_in xs body).
Proof. reflexivity. Qed.

(** ** TfMLP: the loop over the hidden widths *)

Lemma hidden_body_at dims ln act bias (i : nat) (w : Z) layers :
  dims !! i = Some w ->
  TfMLP.hidden_body dims ln act bias i layers
  = Ok (layers ++ hidden_block ln act bias w).
Proof.
  intros Hi. unfold TfMLP.hidden_body, getitem. rewrite Hi, bind_Ok.
  unfold hidden_block, append. destruct ln; simpl; [|reflexivity].
  by rewrite <- !app_assoc.
Qed.

Lemma hidden_loop_from pre rest ln act bias layers :
  for_in (seq (length pre) (length rest))
    (TfMLP.hidden_body (pre ++ rest) ln act bias) layers
  = Ok (layers ++ flat_map (hidden_block ln act bias) rest).
Proof.
  revert pre layers. induction rest as [|w rest IH]; intros pre layers; simpl.
  - by rewrite app_nil_r.
  - rewrite (hidden_body_at _ _ _ _ _ w); [|by apply list_lookup_middle].
    rewrite bind_Ok.
    specialize (IH (pre ++ [w]) (layers ++ hidden_block ln act bias w)).
    rewrite length_app, <- app_assoc in IH. simpl in IH.
    rewrite Nat.add_1_r in IH. rewrite IH. by rewrite <- app_assoc.
Qed.

Lemma hidden_loop dims ln act bias layers :
  for_in (range (length dims)) (TfMLP.hidden_body dims ln act bias) layers
  = Ok (layers ++ flat_map (hidden_block ln act bias) dims).
Proof. apply (hidden_loop_from [] dims). Qed.

(** ** TfMLP: the constructor in closed form *)

Section DenseBuilder.
Context {resolver : ActivationResolver}.

Lemma mlp_init_unfold idim dims ln hact od oact bias :
  TfMLP.__init__ idim dims ln hact od oact bias
  = (_ ← assert (bool_decide (idim > 0));
     h ← get_activation_fn hact "tf2";
     let hidden := Input [idim] :: flat_map (hidden_block ln h bias) dims in
     match od with
     | Some d =>
         o ← get_activation_fn oact "tf2";
         Ok {| TfMLP.network := hidden ++ [Dense d (Some o) bias] |}
     | None => Ok {| TfMLP.network := hidden |}
     end).
Proof.
  unfold TfMLP.__init__.
  destruct (assert _) as [[]|e]; [rewrite !bind_Ok | reflexivity].
  destruct (get_activation_fn hact _) as [h|e]; [rewrite !bind_Ok | reflexivity].
  rewrite hidden_loop, bind_Ok. unfold append. simpl.
  destruct od as [d|]; [|reflexivity].
  destruct (get_activation_fn oact _) as [o|e]; reflexivity.
Qed.

Lemma mlp_init_Ok_inv idim dims ln hact od oact bias m :
  TfMLP.__init__ idim dims ln hact od oact bias = Ok m ->
  idim > 0 /\
  exists h, get_activation_fn hact "tf2" = Ok h /\
  match od with
  | Some d =>
      exists o, get_activation_fn oact "tf2" = Ok o /\
      TfMLP.network m
      = Input [idim] :: flat_map (hidden_block ln h bias) dims
        ++ [Dense d (Some o) bias]
  | None =>
      TfMLP.network m
      = Input [idim] :: flat_map (hidden_block ln h bias) dims
  end.
Proof.
  rewrite mlp_init_unfold. intros Hm.
  apply bind_Ok_inv in Hm as (u & Hpos & Hm).
  apply assert_Ok_inv, bool_decide_eq_true in Hpos.
  apply bind_Ok_inv in Hm as (h & Hh & Hm).
  split; [exact Hpos|]. exists h. split; [exact Hh|].
  destruct od as [d|].
  - apply bind_Ok_inv in Hm as (o & Ho & Hm). exists o.
    split; [exact Ho|]. by injection Hm as <-.
  - by injection Hm as <-.
Qed.

Lemma count_app p l1 l2 : count p (l1 ++ l2) = (count p l1 + count p l2)%nat.
Proof. unfold count. by rewrite List.filter_app, length_app. Qed.

Lemma count_normalized_blocks h bias dims :
  count is_normalization (flat_map (hidden_block true h bias) dims)
  = length dims.
Proof.
  induction dims as [|w dims IH]; [reflexivity|].
  rewrite flat_map_cons, count_app, IH. reflexivity.
Qed.

Lemma dense_biases_app l1 l2 :
  dense_biases (l1 ++ l2) = dense_biases l1 ++ dense_biases l2.
Proof. apply omap_app. Qed.

Lemma dense_biases_hidden ln h bias dims :
  dense_biases (flat_map (hidden_block ln h bias) dims)
  = replicate (length dims) bias.
Proof.
  induction dims as [|w dims IH]; [reflexivity|].
  rewrite flat_map_cons, dense_biases_app, IH. by destruct ln.
Qed.

(** C3: with layer normalization on, every hidden width [w] adds, in
    order, a dense layer of [w] units without an activation of its own, a
    [LayerNormalization] with epsilon 1e-5 over the feature axis, and an
    [Activation] layer with the hidden activation; the pipeline holds as
    many normalization steps as there are hidden widths, none of them for
    the output layer. *)
Theorem mlp_layernorm_blocks idim dims hact od oact bias m :
  TfMLP.__init__ idim dims true hact od oact bias = Ok m ->
  exists h out,
    get_activation_fn hact "tf2" = Ok h /\
    TfMLP.network m
    = Input [idim]
      :: flat_map
           (fun w => [Dense w None bias;
                      LayerNormalization None
                        {| significand := 1; exponent10 := -5 |};
                      Activation h])
           dims
      ++ out /\
    match od with
    | Some d => exists o, out = [Dense d (Some o) bias]
    | None => out = []
    end /\
    count is_normalization (TfMLP.network m) = length dims.
Proof.
  intros Hm. apply mlp_init_Ok_inv in Hm as (_ & h & Hh & Hm).
  exists h.
  exists (match od with
          | Some d =>
              match get_activation_fn oact "tf2" with
              | Ok o => [Dense d (Some o) bias]
              | Raise _ => []
              end
          | None => []
          end).
  split; [exact Hh|].
  destruct od as [d|].
  - destruct Hm as (o & Ho & Hm). rewrite Ho, Hm.
    split; [reflexivity|]. split; [by exists o|].
    change (Input [idim] :: ?l) with ([Input [idim]] ++ l).
    rewrite !count_app, count_normalized_blocks. unfold count. simpl. lia.
  - rewrite Hm. split; [by rewrite app_nil_r|]. split; [reflexivity|].
    change (Input [idim] :: ?l) with ([Input [idim]] ++ l).
    rewrite !count_app, count_normalized_blocks. reflexivity.
Qed.

(** C4: a dense layer of [output_dim] units, with the resolved output
    activation as its own activation, ends the pipeline exactly when
    [output_dim] is not [None]; nothing, so no normalization either,
    follows it, whatever [hidden_layer_use_layernorm] is; and every dense
    layer, the output layer included, has [use_bias] as its bias flag. *)
Theorem mlp_output_layer idim dims ln hact od oact bias m :
  TfMLP.__init__ idim dims ln hact od oact bias = Ok m ->
  exists h hidden,
    get_activation_fn hact "tf2" = Ok h /\
    hidden
    = flat_map
        (fun w =>
           if ln then
             [Dense w None bias;
              LayerNormalization None
                {| significand := 1; exponent10 := -5 |};
              Activation h]
           else [Dense w (Some h) bias])
        dims /\
    match od with
    | Some d =>
        exists o, get_activation_fn oact "tf2" = Ok o /\
        TfMLP.network m = (Input [idim] :: hidden) ++ [Dense d (Some o) bias]
    | None => TfMLP.network m = Input [idim] :: hidden
    end /\
    count is_dense (TfMLP.network m)
    = (length dims + match od with Some _ => 1 | None => 0 end)%nat /\
    dense_biases (TfMLP.network m)
    = replicate (length dims + match od with Some _ => 1 | None => 0 end)
        bias.
Proof.
  intros Hm. apply mlp_init_Ok_inv in Hm as (_ & h & Hh & Hm).
  exists h, (flat_map (hidden_block ln h bias) dims).
  split; [exact Hh|]. split; [reflexivity|].
  assert (Hcount : forall dims,
    count is_dense (flat_map (hidden_block ln h bias) dims) = length dims).
  { clear. induction dims as [|w dims IH]; [reflexivity|].
    rewrite flat_map_cons, count_app, IH. by destruct ln. }
  destruct od as [d|].
  - destruct Hm as (o & Ho & Hm). rewrite Hm.
    split; [by exists o|].
    change (Input [idim] :: ?l) with ([Input [idim]] ++ l).
    rewrite !count_app, Hcount, !dense_biases_app, dense_biases_hidden.
    split; [unfold count; simpl; lia|].
    simpl. by rewrite replicate_add.
  - rewrite Hm. split; [reflexivity|].
    change (Input [idim] :: ?l) with ([Input [idim]] ++ l).
    rewrite !count_app, Hcount, !dense_biases_app, dense_biases_hidden.
    rewrite Nat.add_0_r. split; reflexivity.
Qed.

(** C6: with [input_dim > 0], no hidden widths and an [output_dim], a
    constructed pipeline is the input followed by exactly one dense layer,
    of [output_dim] units, with the resolved output activation and the
    bias flag. *)
Theorem mlp_no_hidden_single_layer idim ln hact d oact bias m :
  idim > 0 ->
  TfMLP.__init__ idim [] ln hact (Some d) oact bias = Ok m ->
  exists o,
    get_activation_fn oact "tf2" = Ok o /\
    TfMLP.network m = [Input [idim]; Dense d (Some o) bias] /\
    count is_dense (TfMLP.network m) = 1%nat.
Proof.
  intros _ Hm. apply mlp_init_Ok_inv in Hm as (_ & h & _ & o & Ho & Hm).
  exists o. split; [exact Ho|]. by rewrite Hm.
Qed.

End DenseBuilder.

(** ** The loops over the filter specifiers *)

Lemma unpack3_Ok_inv {A} (spec : list A) (t : A * A * A) :
  unpack3 spec = Ok t -> spec = (let '(a, b, c) := t in [a; b; c]).
Proof.
  destruct spec as [|a [|b [|c [|d rest]]]]; try discriminate.
  by intros [= <-].
Qed.

(** A loop whose body unpacks a part of its item only ends normally on
    items that hold three elements each. *)
Lemma for_in_unpacked {I S} (part : I -> list SpecItem)
    (body : I -> S -> Result S) (xs : list I) (s s' : S) :
  (forall x s1 s2, body x s1 = Ok s2 -> exists t, part x = spec_of t) ->
  for_in xs body s = Ok s' ->
  exists ts, part <$> xs = spec_of <$> ts.
Proof.
  intros Hbody. revert s.
  induction xs as [|x xs IH]; intros s Hloop.
  - by exists [].
  - simpl in Hloop. apply bind_Ok_inv in Hloop as (s1 & Hx & Hrest).
    destruct (Hbody _ _ _ Hx) as [t Ht].
    destruct (IH _ Hrest) as [ts Hts].
    exists (t :: ts). by rewrite !fmap_cons, Ht, Hts.
Qed.

Lemma conv_body_spec ln act bias t layers :
  TfCNN.conv_body ln act bias (spec_of t) layers
  = Ok (layers ++ conv_block ln act bias t).
Proof.
  destruct t as [[f k] s]. unfold TfCNN.conv_body, append. simpl.
  destruct ln; simpl; [|reflexivity]. by rewrite <- !app_assoc.
Qed.

Lemma conv_body_Ok_inv ln act bias spec layers layers' :
  TfCNN.conv_body ln act bias spec layers = Ok layers' ->
  exists t, spec = spec_of t.
Proof.
  unfold TfCNN.conv_body. intros Hb.
  apply bind_Ok_inv in Hb as (t & Ht & _).
  exists t. by apply unpack3_Ok_inv in Ht.
Qed.

Lemma conv_loop ln act bias ts layers :
  for_in (spec_of <$> ts) (TfCNN.conv_body ln act bias) layers
  = Ok (layers ++ flat_map (conv_block ln act bias) ts).
Proof.
  revert layers. induction ts as [|t ts IH]; intros layers.
  - simpl. by rewrite app_nil_r.
  - rewrite fmap_cons, for_in_cons.
    rewrite conv_body_spec, bind_Ok, IH, flat_map_cons. by rewrite <- app_assoc.
Qed.

Lemma conv_transpose_body_spec all act ln bias (i : Z) t layers :
  TfCNNTranspose.conv_transpose_body all act ln bias (i, spec_of t) layers
  = Ok (layers ++
        if bool_decide (i = Z.of_nat (length all) - 1) then
          let '(f, k, s) := t in [Conv2DTranspose f k s "same" None true]
        else conv_transpose_block ln act bias t).
Proof.
  destruct t as [[f k] s]. unfold TfCNNTranspose.conv_transpose_body, append.
  simpl. destruct (bool_decide _), ln, bias; simpl;
    by rewrite <- ?app_assoc.
Qed.

Lemma conv_transpose_body_Ok_inv all act ln bias item layers layers' :
  TfCNNTranspose.conv_transpose_body all act ln bias item layers = Ok layers' ->
  exists t, item.2 = spec_of t.
Proof.
  destruct item as [i spec]. unfold TfCNNTranspose.conv_transpose_body.
  intros Hb. apply bind_Ok_inv in Hb as (t & Ht & _).
  exists t. by apply unpack3_Ok_inv in Ht.
Qed.

Lemma conv_transpose_loop_from all act ln bias ts (k : nat) layers :
  length all = (k + length ts)%nat ->
  for_in (imap (fun i x => (Z.of_nat (k + i), x)) (spec_of <$> ts))
    (TfCNNTranspose.conv_transpose_body all act ln bias) layers
  = Ok (layers ++ conv_transpose_tail ln act bias ts).
Proof.
  revert k layers. induction ts as [|t ts IH]; intros k layers Hlen.
  - simpl. by rewrite app_nil_r.
  - rewrite fmap_cons, imap_cons, for_in_cons.
    rewrite conv_transpose_body_spec, bind_Ok.
    rewrite (imap_ext _ (fun i x => (Z.of_nat (S k + i), x)));
      [|intros i x _; simpl; f_equal; lia].
    simpl in Hlen. rewrite IH by lia.
    destruct t as [[f k0] s]. destruct ts as [|t' ts].
    + rewrite bool_decide_eq_true_2 by (simpl in Hlen; lia).
      simpl. by rewrite app_nil_r.
    + rewrite bool_decide_eq_false_2 by (simpl in Hlen; lia).
      rewrite <- app_assoc. reflexivity.
Qed.

Lemma conv_transpose_loop all act ln bias ts layers :
  length all = length ts ->
  for_in (enumerate (spec_of <$> ts))
    (TfCNNTranspose.conv_transpose_body all act ln bias) layers
  = Ok (layers ++ conv_transpose_tail ln act bias ts).
Proof. intros Hlen. by apply (conv_transpose_loop_from _ _ _ _ _ 0%nat). Qed.

Lemma enumerate_snd {A} (l : list A) : (enumerate l).*2 = l.
Proof.
  unfold enumerate. rewrite fmap_imap.
  rewrite (imap_ext _ (fun _ x => x)) by done.
  induction l as [|x l IH]; [reflexivity|]. simpl. f_equal. exact IH.
Qed.

Lemma conv_transpose_tail_snoc ln act bias front f k s :
  conv_transpose_tail ln act bias (front ++ [(f, k, s)])
  = flat_map (conv_transpose_block ln act bias) front
    ++ [Conv2DTranspose f k s "same" None true].
Proof.
  induction front as [|[[f' k'] s'] front IH]; [reflexivity|].
  rewrite flat_map_cons, <- app_assoc, <- IH.
  destruct front; reflexivity.
Qed.

(** ** TfCNN and TfCNNTranspose: the constructors in closed form *)

Section ConvBuilders.
Context {resolver : ActivationResolver}.

Lemma cnn_init_Ok_inv dims specs ln act bias m :
  TfCNN.__init__ dims specs ln act bias = Ok m ->
  length dims = 3%nat /\
  exists a ts,
    get_activation_fn act "tf2" = Ok a /\
    specs = spec_of <$> ts /\
    TfCNN.cnn m = Input dims :: flat_map (conv_block ln a bias) ts /\
    TfCNN.expected_input_dtype m = float32.
Proof.
  unfold TfCNN.__init__. intros Hm.
  apply bind_Ok_inv in Hm as (u & Hlen & Hm).
  apply assert_Ok_inv, bool_decide_eq_true in Hlen.
  apply bind_Ok_inv in Hm as (a & Ha & Hm).
  apply bind_Ok_inv in Hm as (layers & Hloop & Hm).
  split; [lia|]. exists a.
  destruct (for_in_unpacked id _ _ _ _ (conv_body_Ok_inv ln a bias) Hloop)
    as [ts Hts].
  rewrite list_fmap_id in Hts. subst specs. exists ts.
  rewrite conv_loop in Hloop. injection Hloop as <-. injection Hm as <-.
  by repeat split.
Qed.

Lemma cnn_transpose_init_Ok_inv dims specs act ln bias m :
  TfCNNTranspose.__init__ dims specs act ln bias = Ok m ->
  length dims = 3%nat /\
  exists a ts,
    get_activation_fn act "tf2" = Ok a /\
    specs = spec_of <$> ts /\
    TfCNNTranspose.cnn_transpose m
    = Input dims :: conv_transpose_tail ln a bias ts /\
    TfCNNTranspose.expected_input_dtype m = float32.
Proof.
  unfold TfCNNTranspose.__init__. intros Hm.
  apply bind_Ok_inv in Hm as (u & Hlen & Hm).
  apply assert_Ok_inv, bool_decide_eq_true in Hlen.
  apply bind_Ok_inv in Hm as (a & Ha & Hm).
  apply bind_Ok_inv in Hm as (layers & Hloop & Hm).
  split; [lia|]. exists a.
  destruct (for_in_unpacked snd _ _ _ _
              (conv_transpose_body_Ok_inv specs a ln bias) Hloop)
    as [ts Hts].
  rewrite enumerate_snd in Hts. subst specs. exists ts.
  rewrite conv_transpose_loop in Hloop by apply length_fmap.
  injection Hloop as <-. injection Hm as <-. by repeat split.
Qed.

Lemma count_blocks p (block : SpecItem * SpecItem * SpecItem -> list Layer)
    (n : nat) ts :
  (forall t, count p (block t) = n) ->
  count p (flat_map block ts) = (length ts * n)%nat.
Proof.
  intros Hn. induction ts as [|t ts IH]; [reflexivity|].
  rewrite flat_map_cons, count_app, IH, Hn. simpl. lia.
Qed.

Lemma conv_transpose_biases_blocks ln a bias ts :
  conv_transpose_biases (flat_map (conv_transpose_block ln a bias) ts)
  = replicate (length ts) bias.
Proof.
  induction ts as [|[[f k] s] ts IH]; [reflexivity|].
  unfold conv_transpose_biases in *.
  rewrite flat_map_cons, omap_app, IH. by destruct ln.
Qed.

(** C5: every spec [(filters, kernel, stride)] adds, in order, one
    [Conv2D] with padding "same" and the global bias flag; with layer
    normalization on, the convolution has no activation of its own and is
    followed by a [LayerNormalization] over the axes [-3, -2, -1] with
    epsilon 1e-5 and an [Activation] layer; with it off, the convolution
    carries the activation and nothing else is added. *)
Theorem cnn_blocks dims specs ln act bias m :
  TfCNN.__init__ dims specs ln act bias = Ok m ->
  exists a ts,
    get_activation_fn act "tf2" = Ok a /\
    specs = (fun '(f, k, s) => [f; k; s]) <$> ts /\
    TfCNN.cnn m
    = Input dims
      :: flat_map
           (fun '(f, k, s) =>
              if ln then
                [Conv2D f k s "same" bias None;
                 LayerNormalization (Some [-3; -2; -1])
                   {| significand := 1; exponent10 := -5 |};
                 Activation a]
              else [Conv2D f k s "same" bias (Some a)])
           ts.
Proof.
  intros Hm.
  apply cnn_init_Ok_inv in Hm as (_ & a & ts & Ha & Hspecs & Hcnn & _).
  exists a, ts. by repeat split.
Qed.

(** C1: when the spec list is not empty, the pipeline ends with the
    transposed convolution of the last spec, whose own activation is
    [None] whatever the configured activation and the normalization flag
    are; nothing follows it, and normalization and activation steps exist
    only for the specs before it. *)
Theorem cnn_transpose_final_not_activated dims specs act ln bias m :
  specs <> [] ->
  TfCNNTranspose.__init__ dims specs act ln bias = Ok m ->
  exists front f k s prefix b,
    specs = front ++ [[f; k; s]] /\
    TfCNNTranspose.cnn_transpose m
    = prefix ++ [Conv2DTranspose f k s "same" None b] /\
    count is_conv_transpose prefix = length front /\
    count is_normalization (TfCNNTranspose.cnn_transpose m)
    = (if ln then length front else 0%nat) /\
    count is_activation (TfCNNTranspose.cnn_transpose m)
    = (if ln then length front else 0%nat).
Proof.
  intros Hne Hm.
  apply cnn_transpose_init_Ok_inv in Hm
    as (_ & a & ts & _ & Hspecs & Hnet & _).
  destruct ts as [|t0 ts0] using rev_ind; [by subst specs|].
  clear IHts0. destruct t0 as [[f k] s].
  rewrite conv_transpose_tail_snoc in Hnet.
  exists (spec_of <$> ts0), f, k, s.
  exists (Input dims :: flat_map (conv_transpose_block ln a bias) ts0), true.
  split; [by rewrite Hspecs, fmap_app|].
  split; [exact Hnet|].
  rewrite Hnet, length_fmap.
  change (Input dims :: ?l) with ([Input dims] ++ l).
  rewrite !count_app.
  rewrite (count_blocks is_conv_transpose _ 1)
    by (intros [[? ?] ?]; by destruct ln).
  rewrite (count_blocks is_normalization _ (if ln then 1 else 0))
    by (intros [[? ?] ?]; by destruct ln).
  rewrite (count_blocks is_activation _ (if ln then 1 else 0))
    by (intros [[? ?] ?]; by destruct ln).
  unfold count. simpl. destruct ln; repeat split; lia.
Qed.

(** C2: when the spec list is not empty, the last transposed convolution
    has [use_bias=True] even if the global bias flag is [False], and each
    one before it has the global bias flag. *)
Theorem cnn_transpose_final_has_bias dims specs act ln bias m :
  specs <> [] ->
  TfCNNTranspose.__init__ dims specs act ln bias = Ok m ->
  conv_transpose_biases (TfCNNTranspose.cnn_transpose m)
  = replicate (length specs - 1) bias ++ [true].
Proof.
  intros Hne Hm.
  apply cnn_transpose_init_Ok_inv in Hm
    as (_ & a & ts & _ & Hspecs & Hnet & _).
  destruct ts as [|t0 ts0] using rev_ind; [by subst specs|].
  clear IHts0. destruct t0 as [[f k] s].
  rewrite conv_transpose_tail_snoc in Hnet.
  rewrite Hnet, Hspecs, length_fmap, length_app. simpl length.
  replace (length ts0 + 1 - 1)%nat with (length ts0) by lia.
  change (Input dims :: ?l) with ([Input dims] ++ l).
  unfold conv_transpose_biases. rewrite !omap_app.
  fold (conv_transpose_biases
          (flat_map (conv_transpose_block ln a bias) ts0)).
  by rewrite conv_transpose_biases_blocks.
Qed.

(** C7: a constructed [TfCNN] and a constructed [TfCNNTranspose] hand
    their pipeline the input cast to float32, whatever tensor the caller
    supplies: on any framework, the pipeline is evaluated on
    [tf.cast(inputs, tf.float32)]. *)
Theorem conv_calls_cast_to_float32 {Tensor : Type}
    dims1 specs1 ln1 act1 bias1 m1 dims2 specs2 act2 ln2 bias2 m2 :
  TfCNN.__init__ dims1 specs1 ln1 act1 bias1 = Ok m1 ->
  TfCNNTranspose.__init__ dims2 specs2 act2 ln2 bias2 = Ok m2 ->
  forall inputs : Tensor,
    TfCNN.call m1 inputs
    = Apply (TfCNN.cnn m1) (Cast (Given inputs) float32) /\
    TfCNNTranspose.call m2 inputs
    = Apply (TfCNNTranspose.cnn_transpose m2) (Cast (Given inputs) float32) /\
    forall tf_cast sequential_call,
      run tf_cast sequential_call (TfCNN.call m1 inputs)
      = sequential_call (TfCNN.cnn m1) (tf_cast inputs float32) /\
      run tf_cast sequential_call (TfCNNTranspose.call m2 inputs)
      = sequential_call (TfCNNTranspose.cnn_transpose m2)
          (tf_cast inputs float32).
Proof.
  intros Hm1 Hm2 inputs.
  apply cnn_init_Ok_inv in Hm1 as (_ & _ & _ & _ & _ & _ & Hd1).
  apply cnn_transpose_init_Ok_inv in Hm2 as (_ & _ & _ & _ & _ & _ & Hd2).
  unfold TfCNN.call, TfCNNTranspose.call. rewrite Hd1, Hd2.
  repeat split.
Qed.

End ConvBuilders.

(** C10: [TfMLP.call] evaluates the pipeline on the input as it is given:
    it asks the framework for no cast, on any framework. *)
Theorem mlp_call_no_cast {Tensor : Type} (self : TfMLP.t) (inputs : Tensor) :
  TfMLP.call self inputs = Apply (TfMLP.network self) (Given inputs) /\
  casts (TfMLP.call self inputs) = [] /\
  forall tf_cast sequential_call,
    run tf_cast sequential_call (TfMLP.call self inputs)
    = sequential_call (TfMLP.network self) inputs.
Proof. repeat split. Qed.

(** ** The builders with the checks of Keras *)

Lemma for_in_Ok_mono {A S} (xs : list A) (body body' : A -> S -> Result S)
    (s s' : S) :
  (forall x s1 s2, body x s1 = Ok s2 -> body' x s1 = Ok s2) ->
  for_in xs body s = Ok s' ->
  for_in xs body' s = Ok s'.
Proof.
  intros Hbody. revert s. induction xs as [|x xs IH]; intros s; [done|].
  rewrite !for_in_cons. intros Hloop.
  apply bind_Ok_inv in Hloop as (s1 & Hx & Hrest).
  rewrite (Hbody _ _ _ Hx), bind_Ok. by apply IH.
Qed.

Section CheckedBuilders.
Context {resolver : ActivationResolver} {keras : KerasChecks}.

Lemma new_layer_Ok_inv (l l' : Layer) :
  new_layer l = Ok l' -> l' = l /\ layer_check l = Ok tt.
Proof.
  unfold new_layer. destruct (layer_check l) as [[]|e]; [|discriminate].
  by intros [= <-].
Qed.

Lemma new_layer_accepted (l : Layer) :
  layer_check l = Ok tt -> new_layer l = Ok l.
Proof. intros Hl. unfold new_layer. by rewrite Hl. Qed.

Lemma new_Sequential_Ok_inv (layers : list Layer) (net : Sequential) :
  new_Sequential layers = Ok net ->
  net = layers /\ sequential_check layers = Ok tt.
Proof.
  unfold new_Sequential.
  destruct (sequential_check layers) as [[]|e]; [|discriminate].
  by intros [= <-].
Qed.

Ltac checked_layer H :=
  let l := fresh "l" in
  let Hl := fresh "Hl" in
  apply bind_Ok_inv in H as (l & Hl & H);
  apply new_layer_Ok_inv in Hl as [-> _].

Lemma checked_hidden_body_Ok dims ln act bias i layers layers' :
  CheckedTfMLP.hidden_body dims ln act bias i layers = Ok layers' ->
  TfMLP.hidden_body dims ln act bias i layers = Ok layers'.
Proof.
  unfold CheckedTfMLP.hidden_body, TfMLP.hidden_body. intros Hb.
  apply bind_Ok_inv in Hb as (units & -> & Hb). rewrite bind_Ok.
  checked_layer Hb. destruct ln; [|exact Hb].
  checked_layer Hb. checked_layer Hb. exact Hb.
Qed.

Lemma checked_conv_body_Ok ln act bias spec layers layers' :
  CheckedTfCNN.conv_body ln act bias spec layers = Ok layers' ->
  TfCNN.conv_body ln act bias spec layers = Ok layers'.
Proof.
  unfold CheckedTfCNN.conv_body, TfCNN.conv_body. intros Hb.
  apply bind_Ok_inv in Hb as ([[f k] s] & -> & Hb). rewrite bind_Ok.
  checked_layer Hb. destruct ln; [|exact Hb].
  checked_layer Hb. checked_layer Hb. exact Hb.
Qed.

Lemma checked_conv_transpose_body_Ok all act ln bias item layers layers' :
  CheckedTfCNNTranspose.conv_transpose_body all act ln bias item layers
  = Ok layers' ->
  TfCNNTranspose.conv_transpose_body all act ln bias item layers
  = Ok layers'.
Proof.
  destruct item as [i spec].
  unfold CheckedTfCNNTranspose.conv_transpose_body,
    TfCNNTranspose.conv_transpose_body.
  intros Hb.
  apply bind_Ok_inv in Hb as ([[f k] s] & -> & Hb). rewrite bind_Ok.
  checked_layer Hb. destruct (_ && _); [|exact Hb].
  checked_layer Hb. checked_layer Hb. exact Hb.
Qed.

(** Keras' checks only ever stop a construction: what a checked builder
    builds is what the builder without the checks builds. *)
Lemma checked_mlp_init_Ok idim dims ln hact od oact bias m :
  CheckedTfMLP.__init__ idim dims ln hact od oact bias = Ok m ->
  TfMLP.__init__ idim dims ln hact od oact bias = Ok m.
Proof.
  unfold CheckedTfMLP.__init__, TfMLP.__init__. intros Hm.
  apply bind_Ok_inv in Hm as (u & -> & Hm). rewrite bind_Ok.
  checked_layer Hm.
  apply bind_Ok_inv in Hm as (h & -> & Hm). rewrite bind_Ok.
  apply bind_Ok_inv in Hm as (layers & Hloop & Hm).
  rewrite (for_in_Ok_mono _ _ _ _ _ (checked_hidden_body_Ok dims ln h bias)
             Hloop), bind_Ok.
  apply bind_Ok_inv in Hm as (layers' & Hout & Hm).
  apply bind_Ok_inv in Hm as (net & [-> _]%new_Sequential_Ok_inv & Hm).
  destruct od as [d|].
  - apply bind_Ok_inv in Hout as (o & -> & Hout). rewrite bind_Ok.
    checked_layer Hout. injection Hout as <-. exact Hm.
  - injection Hout as <-. exact Hm.
Qed.

Lemma checked_cnn_init_Ok dims specs ln act bias m :
  CheckedTfCNN.__init__ dims specs ln act bias = Ok m ->
  TfCNN.__init__ dims specs ln act bias = Ok m.
Proof.
  unfold CheckedTfCNN.__init__, TfCNN.__init__. intros Hm.
  apply bind_Ok_inv in Hm as (u & -> & Hm). rewrite bind_Ok.
  apply bind_Ok_inv in Hm as (a & -> & Hm). rewrite bind_Ok.
  checked_layer Hm.
  apply bind_Ok_inv in Hm as (layers & Hloop & Hm).
  rewrite (for_in_Ok_mono _ _ _ _ _ (checked_conv_body_Ok ln a bias) Hloop),
    bind_Ok.
  by apply bind_Ok_inv in Hm as (net & [-> _]%new_Sequential_Ok_inv & Hm).
Qed.

Lemma checked_cnn_transpose_init_Ok dims specs act ln bias m :
  CheckedTfCNNTranspose.__init__ dims specs act ln bias = Ok m ->
  TfCNNTranspose.__init__ dims specs act ln bias = Ok m.
Proof.
  unfold CheckedTfCNNTranspose.__init__, TfCNNTranspose.__init__. intros Hm.
  apply bind_Ok_inv in Hm as (u & -> & Hm). rewrite bind_Ok.
  apply bind_Ok_inv in Hm as (a & -> & Hm). rewrite bind_Ok.
  checked_layer Hm.
  apply bind_Ok_inv in Hm as (layers & Hloop & Hm).
  rewrite (for_in_Ok_mono _ _ _ _ _
             (checked_conv_transpose_body_Ok specs a ln bias) Hloop),
    bind_Ok.
  by apply bind_Ok_inv in Hm as (net & [-> _]%new_Sequential_Ok_inv & Hm).
Qed.

(** C9: with [input_dim > 0] and arguments that are valid otherwise (a
    hidden activation the resolver accepts, an input layer and a model of
    it that Keras accepts), construction with no hidden widths and no
    [output_dim] succeeds: the builder has no check against it, and the
    pipeline is the input alone, with no dense, normalization or
    activation step. *)
Theorem mlp_no_layers idim ln hact h oact bias :
  idim > 0 ->
  layer_check (Input [idim]) = Ok tt ->
  get_activation_fn hact "tf2" = Ok h ->
  sequential_check [Input [idim]] = Ok tt ->
  exists m,
    CheckedTfMLP.__init__ idim [] ln hact None oact bias = Ok m /\
    TfMLP.network m = [Input [idim]] /\
    count is_dense (TfMLP.network m) = 0%nat /\
    count is_normalization (TfMLP.network m) = 0%nat /\
    count is_activation (TfMLP.network m) = 0%nat.
Proof.
  intros Hpos Hinput Hh Hmodel.
  exists {| TfMLP.network := [Input [idim]] |}.
  split; [|by repeat split].
  unfold CheckedTfMLP.__init__.
  rewrite (bool_decide_eq_true_2 _ Hpos). simpl.
  rewrite (new_layer_accepted _ Hinput), bind_Ok, Hh, bind_Ok. simpl.
  unfold new_Sequential, append. simpl. by rewrite Hmodel.
Qed.

(** X6: with [input_dim > 0] and an input layer Keras accepts, an
    exception of the resolver on the hidden activation leaves the
    constructor as it is, whatever the hidden widths and the output
    settings are. *)
Theorem mlp_resolver_error_propagates idim dims ln hact od oact bias e :
  idim > 0 ->
  layer_check (Input [idim]) = Ok tt ->
  get_activation_fn hact "tf2" = Raise e ->
  CheckedTfMLP.__init__ idim dims ln hact od oact bias = Raise e.
Proof.
  intros Hpos Hinput He. unfold CheckedTfMLP.__init__.
  rewrite (bool_decide_eq_true_2 _ Hpos). simpl.
  by rewrite (new_layer_accepted _ Hinput), bind_Ok, He.
Qed.

End CheckedBuilders.

(** ** Rejected configurations *)






(** ** The theorems at the scenarios *)

Lemma mlp_layernorm_blocks_witness :
  TfMLP.__init__ (resolver := sample_resolver) 4 [8; 8] true (ByName "relu")
    (Some 2) (ByName "linear") true
  = Ok sample_mlp /\
  exists h out,
    get_activation_fn (ActivationResolver := sample_resolver)
      (ByName "relu") "tf2" = Ok h /\
    TfMLP.network sample_mlp
    = Input [4]
      :: flat_map
           (fun w => [Dense w None true;
                      LayerNormalization None
                        {| significand := 1; exponent10 := -5 |};
                      Activation h])
           [8; 8]
      ++ out /\
    (exists o, out = [Dense 2 (Some o) true]) /\
    count is_normalization (TfMLP.network sample_mlp) = 2%nat.
Proof.
  split; [reflexivity|].
  apply (mlp_layernorm_blocks (resolver := sample_resolver) 4 [8; 8]
           (ByName "relu") (Some 2) (ByName "linear") true sample_mlp).
  reflexivity.
Defined.

Lemma mlp_output_layer_witness :
  TfMLP.__init__ (resolver := sample_resolver) 4 [8; 8] true (ByName "relu")
    (Some 2) (ByName "linear") true
  = Ok sample_mlp /\
  exists h hidden,
    get_activation_fn (ActivationResolver := sample_resolver)
      (ByName "relu") "tf2" = Ok h /\
    hidden
    = flat_map
        (fun w => [Dense w None true;
                   LayerNormalization None
                     {| significand := 1; exponent10 := -5 |};
                   Activation h])
        [8; 8] /\
    (exists o,
        get_activation_fn (ActivationResolver := sample_resolver)
          (ByName "linear") "tf2" = Ok o /\
        TfMLP.network sample_mlp
        = (Input [4] :: hidden) ++ [Dense 2 (Some o) true]) /\
    count is_dense (TfMLP.network sample_mlp) = 3%nat /\
    dense_biases (TfMLP.network sample_mlp) = [true; true; true].
Proof.
  split; [reflexivity|].
  apply (mlp_output_layer (resolver := sample_resolver) 4 [8; 8] true
           (ByName "relu") (Some 2) (ByName "linear") true sample_mlp).
  reflexivity.
Defined.

Lemma mlp_no_hidden_single_layer_witness :
  4 > 0 /\
  TfMLP.__init__ (resolver := sample_resolver) 4 [] false (ByName "relu")
    (Some 2) (ByName "linear") false
  = Ok sample_output_only_mlp /\
  exists o,
    get_activation_fn (ActivationResolver := sample_resolver)
      (ByName "linear") "tf2" = Ok o /\
    TfMLP.network sample_output_only_mlp
    = [Input [4]; Dense 2 (Some o) false] /\
    count is_dense (TfMLP.network sample_output_only_mlp) = 1%nat.
Proof.
  split; [reflexivity|]. split; [reflexivity|].
  apply (mlp_no_hidden_single_layer (resolver := sample_resolver) 4 false
           (ByName "relu") 2 (ByName "linear") false
           sample_output_only_mlp);
    reflexivity.
Defined.

Lemma mlp_no_layers_witness :
  4 > 0 /\
  layer_check (KerasChecks := sample_keras) (Input [4]) = Ok tt /\
  get_activation_fn (ActivationResolver := sample_resolver)
    (ByName "relu") "tf2" = Ok relu /\
  sequential_check (KerasChecks := sample_keras) [Input [4]] = Ok tt /\
  exists m,
    CheckedTfMLP.__init__ (resolver := sample_resolver)
      (keras := sample_keras) 4 [] false (ByName "relu") None
      (ByName "linear") true = Ok m /\
    TfMLP.network m = [Input [4]] /\
    count is_dense (TfMLP.network m) = 0%nat /\
    count is_normalization (TfMLP.network m) = 0%nat /\
    count is_activation (TfMLP.network m) = 0%nat.
Proof.
  split; [reflexivity|]. split; [reflexivity|]. split; [reflexivity|].
  split; [reflexivity|].
  apply (mlp_no_layers (resolver := sample_resolver) (keras := sample_keras)
           4 false (ByName "relu") relu (ByName "linear") true);
    reflexivity.
Defined.

Lemma cnn_blocks_witness :
  TfCNN.__init__ (resolver := sample_resolver) [16; 16; 3] sample_cnn_specs
    false (ByName "relu") true
  = Ok sample_cnn /\
  exists a ts,
    get_activation_fn (ActivationResolver := sample_resolver)
      (ByName "relu") "tf2" = Ok a /\
    sample_cnn_specs = (fun '(f, k, s) => [f; k; s]) <$> ts /\
    TfCNN.cnn sample_cnn
    = Input [16; 16; 3]
      :: flat_map (fun '(f, k, s) => [Conv2D f k s "same" true (Some a)]) ts.
Proof.
  split; [reflexivity|].
  apply (cnn_blocks (resolver := sample_resolver) [16; 16; 3]
           sample_cnn_specs false (ByName "relu") true sample_cnn).
  reflexivity.
Defined.

Lemma cnn_transpose_final_not_activated_witness :
  sample_transpose_specs <> [] /\
  TfCNNTranspose.__init__ (resolver := sample_resolver) [4; 4; 8]
    sample_transpose_specs (ByName "relu") true false
  = Ok sample_cnn_transpose /\
  exists front f k s prefix b,
    sample_transpose_specs = front ++ [[f; k; s]] /\
    TfCNNTranspose.cnn_transpose sample_cnn_transpose
    = prefix ++ [Conv2DTranspose f k s "same" None b] /\
    count is_conv_transpose prefix = length front /\
    count is_normalization (TfCNNTranspose.cnn_transpose sample_cnn_transpose)
    = length front /\
    count is_activation (TfCNNTranspose.cnn_transpose sample_cnn_transpose)
    = length front.
Proof.
  split; [discriminate|]. split; [reflexivity|].
  apply (cnn_transpose_final_not_activated (resolver := sample_resolver)
           [4; 4; 8] sample_transpose_specs (ByName "relu") true false
           sample_cnn_transpose);
    [discriminate | reflexivity].
Defined.

Lemma cnn_transpose_final_has_bias_witness :
  sample_transpose_specs <> [] /\
  TfCNNTranspose.__init__ (resolver := sample_resolver) [4; 4; 8]
    sample_transpose_specs (ByName "relu") true false
  = Ok sample_cnn_transpose /\
  conv_transpose_biases (TfCNNTranspose.cnn_transpose sample_cnn_transpose)
  = [false; true].
Proof.
  split; [discriminate|]. split; [reflexivity|].
  apply (cnn_transpose_final_has_bias (resolver := sample_resolver)
           [4; 4; 8] sample_transpose_specs (ByName "relu") true false
           sample_cnn_transpose);
    [discriminate | reflexivity].
Defined.

Lemma conv_calls_cast_to_float32_witness :
  TfCNN.__init__ (resolver := sample_resolver) [16; 16; 3] sample_cnn_specs
    false (ByName "relu") true
  = Ok sample_cnn /\
  TfCNNTranspose.__init__ (resolver := sample_resolver) [4; 4; 8]
    sample_transpose_specs (ByName "relu") true false
  = Ok sample_cnn_transpose /\
  TfCNN.call sample_cnn uint8
  = Apply (TfCNN.cnn sample_cnn) (Cast (Given uint8) float32) /\
  TfCNNTranspose.call sample_cnn_transpose uint8
  = Apply (TfCNNTranspose.cnn_transpose sample_cnn_transpose)
      (Cast (Given uint8) float32).
Proof.
  split; [reflexivity|]. split; [reflexivity|].
  destruct (conv_calls_cast_to_float32 (resolver := sample_resolver)
              (Tensor := DType)
              [16; 16; 3] sample_cnn_specs false (ByName "relu") true
              sample_cnn
              [4; 4; 8] sample_transpose_specs (ByName "relu") true false
              sample_cnn_transpose eq_refl eq_refl uint8)
    as (H1 & H2 & _).
  split; [exact H1 | exact H2].
Defined.


(** * Further properties of the builders *)

(** ** TfMLP *)

Section DenseProperties.
Context {resolver : ActivationResolver}.

Lemma hidden_blocks_length ln h bias dims :
  length (flat_map (hidden_block ln h bias) dims)
  = (block_size ln * length dims)%nat.
Proof.
  induction dims as [|w dims IH]; [simpl; lia|].
  rewrite flat_map_cons, length_app, IH. destruct ln; simpl; lia.
Qed.

Lemma hidden_blocks_units ln h bias dims :
  dense_units (flat_map (hidden_block ln h bias) dims) = dims.
Proof.
  induction dims as [|w dims IH]; [reflexivity|].
  unfold dense_units in *. rewrite flat_map_cons, omap_app, IH.
  by destruct ln.
Qed.

Lemma hidden_blocks_plain h bias dims :
  flat_map (hidden_block false h bias) dims
  = (fun w => Dense w (Some h) bias) <$> dims.
Proof.
  induction dims as [|w dims IH]; [reflexivity|].
  rewrite flat_map_cons, fmap_cons, IH. reflexivity.
Qed.

(** X1: construction succeeds only if [input_dim > 0], the hidden
    activation resolves and, if there is an [output_dim], the output
    activation resolves. *)
Theorem mlp_constructs_only_if idim dims ln hact od oact bias m :
  TfMLP.__init__ idim dims ln hact od oact bias = Ok m ->
  idim > 0 /\
  (exists h, get_activation_fn hact "tf2" = Ok h) /\
  (forall d, od = Some d -> exists o, get_activation_fn oact "tf2" = Ok o).
Proof.
  intros Hm. apply mlp_init_Ok_inv in Hm as (Hpos & h & Hh & Hm).
  split; [exact Hpos|]. split; [by exists h|].
  intros d ->. destruct Hm as (o & Ho & _). by exists o.
Qed.

(** X2: without layer normalization the pipeline is the input, one dense
    layer per hidden width carrying the hidden activation itself, and the
    optional output layer: it holds no [LayerNormalization] and no
    [Activation] layer. *)
Theorem mlp_plain_blocks idim dims hact od oact bias m :
  TfMLP.__init__ idim dims false hact od oact bias = Ok m ->
  exists h out,
    get_activation_fn hact "tf2" = Ok h /\
    TfMLP.network m
    = Input [idim] :: ((fun w => Dense w (Some h) bias) <$> dims) ++ out /\
    match od with
    | Some d => exists o, out = [Dense d (Some o) bias]
    | None => out = []
    end /\
    count is_normalization (TfMLP.network m) = 0%nat /\
    count is_activation (TfMLP.network m) = 0%nat.
Proof.
  intros Hm. apply mlp_init_Ok_inv in Hm as (_ & h & Hh & Hm).
  rewrite hidden_blocks_plain in Hm.
  assert (Hnone : forall p, (forall w, p (Dense w (Some h) bias) = false) ->
    count p ((fun w => Dense w (Some h) bias) <$> dims) = 0%nat).
  { clear Hm. intros p Hp. induction dims as [|w dims IH]; [reflexivity|].
    rewrite fmap_cons. unfold count in *. simpl. by rewrite Hp. }
  exists h. destruct od as [d|].
  - destruct Hm as (o & Ho & Hm). exists [Dense d (Some o) bias].
    rewrite Hm. split; [exact Hh|]. split; [reflexivity|].
    split; [by exists o|].
    change (Input [idim] :: ?l) with ([Input [idim]] ++ l).
    rewrite !count_app, !Hnone by done. by split.
  - exists []. rewrite Hm, app_nil_r. split; [exact Hh|].
    split; [reflexivity|]. split; [reflexivity|].
    change (Input [idim] :: ?l) with ([Input [idim]] ++ l).
    rewrite !count_app, !Hnone by done. by split.
Qed.

(** X3: without an [output_dim] the output activation plays no part: two
    configurations that differ in it alone give the same result. *)
Theorem mlp_output_activation_unused idim dims ln hact oact oact' bias :
  TfMLP.__init__ idim dims ln hact None oact bias
  = TfMLP.__init__ idim dims ln hact None oact' bias.
Proof. by rewrite !mlp_init_unfold. Qed.

(** X4: the sizes of the dense layers, in order, are the hidden widths
    followed by [output_dim] if there is one; so the last dense layer has
    size [output_dim], or [hidden_layer_dims[-1]] without an output layer. *)
Theorem mlp_dense_units idim dims ln hact od oact bias m :
  TfMLP.__init__ idim dims ln hact od oact bias = Ok m ->
  dense_units (TfMLP.network m) = dims ++ option_list od /\
  last (dense_units (TfMLP.network m))
  = match od with Some d => Some d | None => last dims end.
Proof.
  intros Hm. apply mlp_init_Ok_inv in Hm as (_ & h & _ & Hm).
  assert (Hunits : dense_units (TfMLP.network m) = dims ++ option_list od).
  { destruct od as [d|].
    - destruct Hm as (o & _ & ->).
      change (Input [idim] :: ?l) with ([Input [idim]] ++ l).
      unfold dense_units. rewrite !omap_app.
      fold (dense_units (flat_map (hidden_block ln h bias) dims)).
      by rewrite hidden_blocks_units.
    - rewrite Hm.
      change (Input [idim] :: ?l) with ([Input [idim]] ++ l).
      unfold dense_units. rewrite !omap_app.
      fold (dense_units (flat_map (hidden_block ln h bias) dims)).
      rewrite hidden_blocks_units. simpl. by rewrite app_nil_r. }
  split; [exact Hunits|]. rewrite Hunits.
  destruct od as [d|]; simpl; [apply last_snoc | by rewrite app_nil_r].
Qed.

(** X5: the pipeline holds the input, three layers per hidden width with
    layer normalization and one without, and one more for an output
    layer. *)
Theorem mlp_pipeline_length idim dims ln hact od oact bias m :
  TfMLP.__init__ idim dims ln hact od oact bias = Ok m ->
  length (TfMLP.network m)
  = (1 + (if ln then 3 else 1) * length dims
     + match od with Some _ => 1 | None => 0 end)%nat.
Proof.
  intros Hm. apply mlp_init_Ok_inv in Hm as (_ & h & _ & Hm).
  destruct od as [d|].
  - destruct Hm as (o & _ & ->). simpl.
    rewrite length_app, hidden_blocks_length. unfold block_size. simpl. lia.
  - rewrite Hm. simpl. rewrite hidden_blocks_length. unfold block_size. lia.
Qed.

(** X7: more hidden widths, or an output layer, only add to the end: the
    pipeline for [dims1] without an output layer is a prefix of the pipeline
    for [dims1 ++ dims2] with any output setting. *)
Theorem mlp_extend_hidden idim dims1 dims2 ln hact od oact oact' bias m1 m2 :
  TfMLP.__init__ idim dims1 ln hact None oact bias = Ok m1 ->
  TfMLP.__init__ idim (dims1 ++ dims2) ln hact od oact' bias = Ok m2 ->
  TfMLP.network m1 `prefix_of` TfMLP.network m2.
Proof.
  intros Hm1 Hm2.
  apply mlp_init_Ok_inv in Hm1 as (_ & h1 & Hh1 & Hm1).
  apply mlp_init_Ok_inv in Hm2 as (_ & h2 & Hh2 & Hm2).
  assert (h2 = h1) as -> by congruence.
  rewrite Hm1. rewrite flat_map_app in Hm2.
  destruct od as [d|].
  - destruct Hm2 as (o & _ & ->).
    eexists. rewrite <- !app_comm_cons, <- !app_assoc. reflexivity.
  - rewrite Hm2. eexists. rewrite <- !app_comm_cons. reflexivity.
Qed.

End DenseProperties.

(** ** TfCNN and TfCNNTranspose *)

Lemma spec_of_inj t1 t2 : spec_of t1 = spec_of t2 -> t1 = t2.
Proof. destruct t1 as [[? ?] ?], t2 as [[? ?] ?]. by intros [= -> -> ->]. Qed.

Lemma specs_of_inj (ts1 ts2 : list (SpecItem * SpecItem * SpecItem)) :
  spec_of <$> ts1 = spec_of <$> ts2 -> ts1 = ts2.
Proof.
  revert ts2. induction ts1 as [|t1 ts1 IH]; intros [|t2 ts2];
    try discriminate; [reflexivity|].
  rewrite !fmap_cons. intros [= Ht Hts].
  f_equal; [by apply spec_of_inj | by apply IH].
Qed.

Lemma three_items_unpacked (specs : list (list SpecItem)) :
  Forall (fun spec => length spec = 3%nat) specs <->
  exists ts, specs = spec_of <$> ts.
Proof.
  split.
  - induction 1 as [|spec specs Hlen _ [ts ->]]; [by exists []|].
    destruct spec as [|f [|k [|s [|? ?]]]]; try discriminate.
    by exists ((f, k, s) :: ts).
  - intros [ts ->]. induction ts as [|[[f k] s] ts IH]; constructor; done.
Qed.




Lemma conv_blocks_length ln a bias ts :
  length (flat_map (conv_block ln a bias) ts)
  = (block_size ln * length ts)%nat.
Proof.
  induction ts as [|[[f k] s] ts IH]; [simpl; lia|].
  rewrite flat_map_cons, length_app, IH. destruct ln; simpl; lia.
Qed.

Lemma conv_transpose_blocks_length ln a bias ts :
  length (flat_map (conv_transpose_block ln a bias) ts)
  = (block_size ln * length ts)%nat.
Proof.
  induction ts as [|[[f k] s] ts IH]; [simpl; lia|].
  rewrite flat_map_cons, length_app, IH. destruct ln; simpl; lia.
Qed.

Lemma conv_blocks_filters ln a bias ts :
  Some <$> conv_filters (flat_map (conv_block ln a bias) ts)
  = head <$> (spec_of <$> ts).
Proof.
  induction ts as [|[[f k] s] ts IH]; [reflexivity|].
  unfold conv_filters in *.
  rewrite flat_map_cons, omap_app, fmap_app, IH, !fmap_cons.
  by destruct ln.
Qed.

Lemma conv_transpose_blocks_activations ln a bias ts :
  conv_transpose_activations (flat_map (conv_transpose_block ln a bias) ts)
  = replicate (length ts) (if ln then None else Some a).
Proof.
  induction ts as [|[[f k] s] ts IH]; [reflexivity|].
  unfold conv_transpose_activations in *.
  rewrite flat_map_cons, omap_app, IH. by destruct ln.
Qed.

Section ConvProperties.
Context {resolver : ActivationResolver}.

(** X8: each convolutional builder constructs only if [input_dims] has
    three entries, the activation resolves and every spec holds exactly
    three items. *)
Theorem conv_constructs_only_if
    dims specs ln act bias m dims' specs' act' ln' bias' m' :
  TfCNN.__init__ dims specs ln act bias = Ok m ->
  TfCNNTranspose.__init__ dims' specs' act' ln' bias' = Ok m' ->
  (length dims = 3%nat /\
   (exists a, get_activation_fn act "tf2" = Ok a) /\
   Forall (fun spec => length spec = 3%nat) specs) /\
  (length dims' = 3%nat /\
   (exists a, get_activation_fn act' "tf2" = Ok a) /\
   Forall (fun spec => length spec = 3%nat) specs').
Proof.
  intros Hm Hm'.
  apply cnn_init_Ok_inv in Hm as (Hlen & a & ts & Ha & -> & _).
  apply cnn_transpose_init_Ok_inv in Hm' as (Hlen' & a' & ts' & Ha' & -> & _).
  split.
  - split; [exact Hlen|]. split; [by exists a|].
    apply three_items_unpacked. by exists ts.
  - split; [exact Hlen'|]. split; [by exists a'|].
    apply three_items_unpacked. by exists ts'.
Qed.


(** X10: a [TfCNN] pipeline holds the input and, per spec, three layers
    with layer normalization and one without; the filter counts of its
    convolutions, in order, are the first items of the specs. *)
Theorem cnn_pipeline_shape dims specs ln act bias m :
  TfCNN.__init__ dims specs ln act bias = Ok m ->
  length (TfCNN.cnn m) = (1 + (if ln then 3 else 1) * length specs)%nat /\
  Some <$> conv_filters (TfCNN.cnn m) = head <$> specs.
Proof.
  intros Hm.
  apply cnn_init_Ok_inv in Hm as (_ & a & ts & _ & -> & Hnet & _).
  rewrite Hnet, length_fmap. split.
  - simpl. rewrite conv_blocks_length. unfold block_size. lia.
  - change (Input dims :: ?l) with ([Input dims] ++ l).
    unfold conv_filters. rewrite omap_app. simpl.
    apply conv_blocks_filters.
Qed.

(** X11: with three [input_dims], an exception of the resolver leaves
    both convolutional constructors as it is, before any spec is looked
    at. *)
Theorem conv_resolver_error_propagates dims specs specs' ln ln' act bias
    bias' e :
  length dims = 3%nat ->
  get_activation_fn act "tf2" = Raise e ->
  TfCNN.__init__ dims specs ln act bias = Raise e /\
  TfCNNTranspose.__init__ dims specs' act ln' bias' = Raise e.
Proof.
  intros Hlen He. unfold TfCNN.__init__, TfCNNTranspose.__init__.
  rewrite bool_decide_eq_true_2 by lia. simpl. by rewrite He.
Qed.

(** X12: the last layer of a [TfCNNTranspose] pipeline is a transposed
    convolution that depends on the spec list alone: changing the
    activation, the normalization flag, the bias flag or [input_dims]
    leaves it as it is. *)
Theorem cnn_transpose_final_layer_invariant
    dims dims' specs act act' ln ln' bias bias' m m' :
  specs <> [] ->
  TfCNNTranspose.__init__ dims specs act ln bias = Ok m ->
  TfCNNTranspose.__init__ dims' specs act' ln' bias' = Ok m' ->
  last (TfCNNTranspose.cnn_transpose m)
  = last (TfCNNTranspose.cnn_transpose m') /\
  exists l,
    last (TfCNNTranspose.cnn_transpose m) = Some l /\
    is_conv_transpose l = true.
Proof.
  intros Hne Hm Hm'.
  apply cnn_transpose_init_Ok_inv in Hm
    as (_ & a & ts & _ & Hspecs & Hnet & _).
  apply cnn_transpose_init_Ok_inv in Hm'
    as (_ & a' & ts' & _ & Hspecs' & Hnet' & _).
  assert (ts' = ts) as -> by (apply specs_of_inj; congruence).
  destruct ts as [|[[f k] s] ts0 _] using rev_ind; [by subst specs|].
  rewrite conv_transpose_tail_snoc in Hnet, Hnet'.
  rewrite Hnet, Hnet', !app_comm_cons, !last_snoc.
  split; [reflexivity|]. by eexists.
Qed.

(** X13: with exactly one spec the pipeline is the input and one
    transposed convolution with no activation and with bias, whatever the
    activation, the normalization flag and the bias flag are. *)
Theorem cnn_transpose_single_spec dims spec act ln bias m :
  TfCNNTranspose.__init__ dims [spec] act ln bias = Ok m ->
  exists f k s,
    spec = [f; k; s] /\
    TfCNNTranspose.cnn_transpose m
    = [Input dims; Conv2DTranspose f k s "same" None true].
Proof.
  intros Hm.
  apply cnn_transpose_init_Ok_inv in Hm
    as (_ & a & ts & _ & Hspecs & Hnet & _).
  destruct ts as [|[[f k] s] [|t ts]]; try discriminate.
  injection Hspecs as ->. by exists f, k, s.
Qed.

(** X14: a [TfCNNTranspose] pipeline over [n > 0] specs holds the input,
    the final transposed convolution and, for each of the [n - 1] specs
    before it, three layers with layer normalization and one without; over
    no spec it is the input alone. *)
Theorem cnn_transpose_pipeline_length dims specs act ln bias m :
  TfCNNTranspose.__init__ dims specs act ln bias = Ok m ->
  length (TfCNNTranspose.cnn_transpose m)
  = match specs with
    | [] => 1%nat
    | _ :: rest => (2 + (if ln then 3 else 1) * length rest)%nat
    end.
Proof.
  intros Hm.
  apply cnn_transpose_init_Ok_inv in Hm
    as (_ & a & ts & _ & Hspecs & Hnet & _).
  rewrite Hnet.
  destruct ts as [|[[f k] s] ts0 _] using rev_ind; [by subst specs|].
  rewrite conv_transpose_tail_snoc. simpl.
  rewrite length_app, conv_transpose_blocks_length. simpl.
  assert (Hlen : length specs = S (length ts0)).
  { rewrite Hspecs, length_fmap, length_app. simpl. lia. }
  destruct specs as [|spec rest]; [discriminate|].
  simpl in Hlen. unfold block_size. lia.
Qed.

(** X15: the transposed convolutions before the last carry the resolved
    activation themselves exactly when layer normalization is off; with it
    on, none of the transposed convolutions has an activation of its own. *)
Theorem cnn_transpose_inline_activations dims specs act ln bias m :
  specs <> [] ->
  TfCNNTranspose.__init__ dims specs act ln bias = Ok m ->
  exists a,
    get_activation_fn act "tf2" = Ok a /\
    conv_transpose_activations (TfCNNTranspose.cnn_transpose m)
    = replicate (length specs - 1) (if ln then None else Some a) ++ [None].
Proof.
  intros Hne Hm.
  apply cnn_transpose_init_Ok_inv in Hm
    as (_ & a & ts & Ha & Hspecs & Hnet & _).
  exists a. split; [exact Ha|].
  destruct ts as [|[[f k] s] ts0 _] using rev_ind; [by subst specs|].
  rewrite conv_transpose_tail_snoc in Hnet.
  rewrite Hnet, Hspecs, length_fmap, length_app. simpl length.
  replace (length ts0 + 1 - 1)%nat with (length ts0) by lia.
  change (Input dims :: ?l) with ([Input dims] ++ l).
  unfold conv_transpose_activations. rewrite !omap_app.
  fold (conv_transpose_activations
          (flat_map (conv_transpose_block ln a bias) ts0)).
  by rewrite conv_transpose_blocks_activations.
Qed.

(** X16: every constructed pipeline starts with its input layer, of shape
    [(input_dim,)] for [TfMLP] and [input_dims] for the convolutional
    builders, and holds no other input layer. *)
Theorem pipelines_start_with_input
    idim hdims hln hact od oact hbias mlp
    dims specs ln act bias cnn
    dims' specs' act' ln' bias' cnnt :
  TfMLP.__init__ idim hdims hln hact od oact hbias = Ok mlp ->
  TfCNN.__init__ dims specs ln act bias = Ok cnn ->
  TfCNNTranspose.__init__ dims' specs' act' ln' bias' = Ok cnnt ->
  (head (TfMLP.network mlp) = Some (Input [idim]) /\
   count is_input (TfMLP.network mlp) = 1%nat) /\
  (head (TfCNN.cnn cnn) = Some (Input dims) /\
   count is_input (TfCNN.cnn cnn) = 1%nat) /\
  (head (TfCNNTranspose.cnn_transpose cnnt) = Some (Input dims') /\
   count is_input (TfCNNTranspose.cnn_transpose cnnt) = 1%nat).
Proof.
  intros Hmlp Hcnn Hcnnt.
  apply mlp_init_Ok_inv in Hmlp as (_ & h & _ & Hmlp).
  apply cnn_init_Ok_inv in Hcnn as (_ & a & ts & _ & _ & Hcnn & _).
  apply cnn_transpose_init_Ok_inv in Hcnnt
    as (_ & a' & ts' & _ & _ & Hcnnt & _).
  assert (Hhidden : count is_input (flat_map (hidden_block hln h hbias) hdims)
                    = 0%nat).
  { clear. induction hdims as [|w hdims IH]; [reflexivity|].
    rewrite flat_map_cons, count_app, IH. by destruct hln. }
  split; [|split].
  - destruct od as [d|].
    + destruct Hmlp as (o & _ & ->). split; [reflexivity|].
      change (Input [idim] :: ?l) with ([Input [idim]] ++ l).
      by rewrite !count_app, Hhidden.
    + rewrite Hmlp. split; [reflexivity|].
      change (Input [idim] :: ?l) with ([Input [idim]] ++ l).
      by rewrite !count_app, Hhidden.
  - rewrite Hcnn. split; [reflexivity|].
    change (Input dims :: ?l) with ([Input dims] ++ l).
    rewrite count_app, (count_blocks is_input _ 0)
      by (intros [[? ?] ?]; by destruct ln).
    unfold count. simpl. lia.
  - rewrite Hcnnt. split; [reflexivity|].
    change (Input dims' :: ?l) with ([Input dims'] ++ l).
    rewrite count_app.
    destruct ts' as [|[[f k] s] ts0 _] using rev_ind; [reflexivity|].
    rewrite conv_transpose_tail_snoc, count_app.
    rewrite (count_blocks is_input _ 0)
      by (intros [[? ?] ?]; by destruct ln').
    unfold count. simpl. lia.
Qed.

End ConvProperties.

(** ** The further properties at the scenarios *)

Lemma mlp_plain_blocks_witness :
  TfMLP.__init__ (resolver := sample_resolver) 4 [8; 16] false
    (ByName "relu") (Some 2) (ByName "linear") true
  = Ok sample_plain_mlp /\
  exists h out,
    get_activation_fn (ActivationResolver := sample_resolver)
      (ByName "relu") "tf2" = Ok h /\
    TfMLP.network sample_plain_mlp
    = Input [4] :: ((fun w => Dense w (Some h) true) <$> [8; 16]) ++ out /\
    (exists o, out = [Dense 2 (Some o) true]) /\
    count is_normalization (TfMLP.network sample_plain_mlp) = 0%nat /\
    count is_activation (TfMLP.network sample_plain_mlp) = 0%nat.
Proof.
  split; [reflexivity|].
  apply (mlp_plain_blocks (resolver := sample_resolver) 4 [8; 16]
           (ByName "relu") (Some 2) (ByName "linear") true sample_plain_mlp).
  reflexivity.
Defined.

Lemma mlp_dense_units_witness :
  TfMLP.__init__ (resolver := sample_resolver) 4 [8; 8] true (ByName "relu")
    (Some 2) (ByName "linear") true
  = Ok sample_mlp /\
  dense_units (TfMLP.network sample_mlp) = [8; 8; 2] /\
  last (dense_units (TfMLP.network sample_mlp)) = Some 2.
Proof.
  split; [reflexivity|].
  apply (mlp_dense_units (resolver := sample_resolver) 4 [8; 8] true
           (ByName "relu") (Some 2) (ByName "linear") true sample_mlp).
  reflexivity.
Defined.

Lemma mlp_pipeline_length_witness :
  TfMLP.__init__ (resolver := sample_resolver) 4 [8; 8] true (ByName "relu")
    (Some 2) (ByName "linear") true
  = Ok sample_mlp /\
  length (TfMLP.network sample_mlp) = 8%nat.
Proof.
  split; [reflexivity|].
  apply (mlp_pipeline_length (resolver := sample_resolver) 4 [8; 8] true
           (ByName "relu") (Some 2) (ByName "linear") true sample_mlp).
  reflexivity.
Defined.

Lemma mlp_resolver_error_propagates_witness :
  4 > 0 /\
  layer_check (KerasChecks := sample_keras) (Input [4]) = Ok tt /\
  get_activation_fn (ActivationResolver := sample_resolver)
    (ByName "bogus") "tf2" = Raise (InvalidConfiguration "bogus") /\
  CheckedTfMLP.__init__ (resolver := sample_resolver) (keras := sample_keras)
    4 [8] false (ByName "bogus") (Some 2) (ByName "relu") true
  = Raise (InvalidConfiguration "bogus").
Proof.
  split; [reflexivity|]. split; [reflexivity|]. split; [reflexivity|].
  apply (mlp_resolver_error_propagates (resolver := sample_resolver)
           (keras := sample_keras) 4 [8] false (ByName "bogus") (Some 2)
           (ByName "relu") true (InvalidConfiguration "bogus"));
    reflexivity.
Defined.

Lemma mlp_extend_hidden_witness :
  TfMLP.__init__ (resolver := sample_resolver) 4 [8] false (ByName "relu")
    None (ByName "linear") true
  = Ok {| TfMLP.network := [Input [4]; Dense 8 (Some relu) true] |} /\
  TfMLP.__init__ (resolver := sample_resolver) 4 ([8] ++ [16]) false
    (ByName "relu") (Some 2) (ByName "tanh") true
  = Ok {| TfMLP.network :=
            [Input [4]; Dense 8 (Some relu) true; Dense 16 (Some relu) true;
             Dense 2 (Some (NamedActivation "tanh")) true] |} /\
  [Input [4]; Dense 8 (Some relu) true]
  `prefix_of` [Input [4]; Dense 8 (Some relu) true;
               Dense 16 (Some relu) true;
               Dense 2 (Some (NamedActivation "tanh")) true].
Proof.
  split; [reflexivity|]. split; [reflexivity|].
  apply (mlp_extend_hidden (resolver := sample_resolver) 4 [8] [16] false
           (ByName "relu") (Some 2) (ByName "linear") (ByName "tanh") true
           {| TfMLP.network := [Input [4]; Dense 8 (Some relu) true] |}
           {| TfMLP.network :=
                [Input [4]; Dense 8 (Some relu) true;
                 Dense 16 (Some relu) true;
                 Dense 2 (Some (NamedActivation "tanh")) true] |});
    reflexivity.
Defined.


Lemma cnn_pipeline_shape_witness :
  TfCNN.__init__ (resolver := sample_resolver) [16; 16; 3] sample_cnn_specs
    false (ByName "relu") true
  = Ok sample_cnn /\
  length (TfCNN.cnn sample_cnn) = 3%nat /\
  Some <$> conv_filters (TfCNN.cnn sample_cnn)
  = [Some (ItemInt 32); Some (ItemInt 64)].
Proof.
  split; [reflexivity|].
  apply (cnn_pipeline_shape (resolver := sample_resolver) [16; 16; 3]
           sample_cnn_specs false (ByName "relu") true sample_cnn).
  reflexivity.
Defined.

Lemma conv_resolver_error_propagates_witness :
  length [16; 16; 3] = 3%nat /\
  get_activation_fn (ActivationResolver := sample_resolver)
    (ByName "bogus") "tf2" = Raise (InvalidConfiguration "bogus") /\
  TfCNN.__init__ (resolver := sample_resolver) [16; 16; 3] sample_cnn_specs
    false (ByName "bogus") true
  = Raise (InvalidConfiguration "bogus") /\
  TfCNNTranspose.__init__ (resolver := sample_resolver) [16; 16; 3]
    sample_transpose_specs (ByName "bogus") true false
  = Raise (InvalidConfiguration "bogus").
Proof.
  split; [reflexivity|]. split; [reflexivity|].
  apply (conv_resolver_error_propagates (resolver := sample_resolver)
           [16; 16; 3] sample_cnn_specs sample_transpose_specs false true
           (ByName "bogus") true false (InvalidConfiguration "bogus"));
    reflexivity.
Defined.

Lemma cnn_transpose_final_layer_invariant_witness :
  sample_transpose_specs <> [] /\
  TfCNNTranspose.__init__ (resolver := sample_resolver) [4; 4; 8]
    sample_transpose_specs (ByName "relu") true false
  = Ok sample_cnn_transpose /\
  TfCNNTranspose.__init__ (resolver := sample_resolver) [2; 2; 8]
    sample_transpose_specs (ByName "tanh") false true
  = Ok sample_plain_cnn_transpose /\
  last (TfCNNTranspose.cnn_transpose sample_cnn_transpose)
  = last (TfCNNTranspose.cnn_transpose sample_plain_cnn_transpose) /\
  exists l,
    last (TfCNNTranspose.cnn_transpose sample_cnn_transpose) = Some l /\
    is_conv_transpose l = true.
Proof.
  split; [discriminate|]. split; [reflexivity|]. split; [reflexivity|].
  apply (cnn_transpose_final_layer_invariant (resolver := sample_resolver)
           [4; 4; 8] [2; 2; 8] sample_transpose_specs
           (ByName "relu") (ByName "tanh") true false false true
           sample_cnn_transpose sample_plain_cnn_transpose);
    [discriminate | reflexivity | reflexivity].
Defined.

Lemma cnn_transpose_single_spec_witness :
  TfCNNTranspose.__init__ (resolver := sample_resolver) [4; 4; 8]
    [[ItemInt 3; ItemInt 4; ItemInt 2]] (ByName "relu") true false
  = Ok sample_single_cnn_transpose /\
  exists f k s,
    [ItemInt 3; ItemInt 4; ItemInt 2] = [f; k; s] /\
    TfCNNTranspose.cnn_transpose sample_single_cnn_transpose
    = [Input [4; 4; 8]; Conv2DTranspose f k s "same" None true].
Proof.
  split; [reflexivity|].
  apply (cnn_transpose_single_spec (resolver := sample_resolver) [4; 4; 8]
           [ItemInt 3; ItemInt 4; ItemInt 2] (ByName "relu") true false
           sample_single_cnn_transpose).
  reflexivity.
Defined.

Lemma cnn_transpose_pipeline_length_witness :
  TfCNNTranspose.__init__ (resolver := sample_resolver) [4; 4; 8]
    sample_transpose_specs (ByName "relu") true false
  = Ok sample_cnn_transpose /\
  length (TfCNNTranspose.cnn_transpose sample_cnn_transpose) = 5%nat.
Proof.
  split; [reflexivity|].
  apply (cnn_transpose_pipeline_length (resolver := sample_resolver)
           [4; 4; 8] sample_transpose_specs (ByName "relu") true false
           sample_cnn_transpose).
  reflexivity.
Defined.

Lemma cnn_transpose_inline_activations_witness :
  sample_transpose_specs <> [] /\
  TfCNNTranspose.__init__ (resolver := sample_resolver) [4; 4; 8]
    sample_transpose_specs (ByName "relu") true false
  = Ok sample_cnn_transpose /\
  exists a,
    get_activation_fn (ActivationResolver := sample_resolver)
      (ByName "relu") "tf2" = Ok a /\
    conv_transpose_activations
      (TfCNNTranspose.cnn_transpose sample_cnn_transpose)
    = [None; None].
Proof.
  split; [discriminate|]. split; [reflexivity|].
  apply (cnn_transpose_inline_activations (resolver := sample_resolver)
           [4; 4; 8] sample_transpose_specs (ByName "relu") true false
           sample_cnn_transpose);
    [discriminate | reflexivity].
Defined.

Lemma pipelines_start_with_input_witness :
  TfMLP.__init__ (resolver := sample_resolver) 4 [8; 8] true (ByName "relu")
    (Some 2) (ByName "linear") true
  = Ok sample_mlp /\
  TfCNN.__init__ (resolver := sample_resolver) [16; 16; 3] sample_cnn_specs
    false (ByName "relu") true
  = Ok sample_cnn /\
  TfCNNTranspose.__init__ (resolver := sample_resolver) [4; 4; 8]
    sample_transpose_specs (ByName "relu") true false
  = Ok sample_cnn_transpose /\
  (head (TfMLP.network sample_mlp) = Some (Input [4]) /\
   count is_input (TfMLP.network sample_mlp) = 1%nat) /\
  (head (TfCNN.cnn sample_cnn) = Some (Input [16; 16; 3]) /\
   count is_input (TfCNN.cnn sample_cnn) = 1%nat) /\
  (head (TfCNNTranspose.cnn_transpose sample_cnn_transpose)
   = Some (Input [4; 4; 8]) /\
   count is_input (TfCNNTranspose.cnn_transpose sample_cnn_transpose)
   = 1%nat).
Proof.
  split; [reflexivity|]. split; [reflexivity|]. split; [reflexivity|].
  apply (pipelines_start_with_input (resolver := sample_resolver)
           4 [8; 8] true (ByName "relu") (Some 2) (ByName "linear") true
           sample_mlp
           [16; 16; 3] sample_cnn_specs false (ByName "relu") true sample_cnn
           [4; 4; 8] sample_transpose_specs (ByName "relu") true false
           sample_cnn_transpose);
    reflexivity.
Defined.

Lemma mlp_constructs_only_if_witness :
  TfMLP.__init__ (resolver := sample_resolver) 4 [8; 8] true (ByName "relu")
    (Some 2) (ByName "linear") true
  = Ok sample_mlp /\
  4 > 0 /\
  (exists h,
      get_activation_fn (ActivationResolver := sample_resolver)
        (ByName "relu") "tf2" = Ok h) /\
  (forall d,
      Some 2 = Some d ->
      exists o,
        get_activation_fn (ActivationResolver := sample_resolver)
          (ByName "linear") "tf2" = Ok o).
Proof.
  split; [reflexivity|].
  apply (mlp_constructs_only_if (resolver := sample_resolver) 4 [8; 8] true
           (ByName "relu") (Some 2) (ByName "linear") true sample_mlp).
  reflexivity.
Defined.

Lemma conv_constructs_only_if_witness :
  TfCNN.__init__ (resolver := sample_resolver) [16; 16; 3] sample_cnn_specs
    false (ByName "relu") true
  = Ok sample_cnn /\
  TfCNNTranspose.__init__ (resolver := sample_resolver) [4; 4; 8]
    sample_transpose_specs (ByName "relu") true false
  = Ok sample_cnn_transpose /\
  (length [16; 16; 3] = 3%nat /\
   (exists a,
       get_activation_fn (ActivationResolver := sample_resolver)
         (ByName "relu") "tf2" = Ok a) /\
   Forall (fun spec : list SpecItem => length spec = 3%nat)
     sample_cnn_specs) /\
  (length [4; 4; 8] = 3%nat /\
   (exists a,
       get_activation_fn (ActivationResolver := sample_resolver)
         (ByName "relu") "tf2" = Ok a) /\
   Forall (fun spec : list SpecItem => length spec = 3%nat)
     sample_transpose_specs).
Proof.
  split; [reflexivity|]. split; [reflexivity|].
  apply (conv_constructs_only_if (resolver := sample_resolver)
           [16; 16; 3] sample_cnn_specs false (ByName "relu") true sample_cnn
           [4; 4; 8] sample_transpose_specs (ByName "relu") true false
           sample_cnn_transpose);
    reflexivity.
Defined.
